(** * Archive acquisition ([rec_sys/pipelines/raw/nodes.py])

    A shallow embedding of the four functions of the raw-layer node module,
    [check_url_is_a_zip_from_header], [download_file_from_url],
    [extract_zip_content] and [download_and_extract_zip], together with the
    parts of the Python libraries they call: [urllib.parse.urlparse],
    [pathlib.Path], [requests], [os.makedirs] and [zipfile.ZipFile].

    Python [str] values are [string]s, a character standing for a code
    point below 256, and [bytes] values are [string]s, a character standing
    for a byte.  Paths follow the POSIX flavour of [pathlib] and [os.path].
    The library functions follow the sources of CPython 3.11.  The calls of
    the logger are left out. *)

From Stdlib Require Import ZArith String Ascii List Bool Lia HexadecimalString.
From stdpp Require Import base tactics option list strings gmap pretty.

Local Open Scope string_scope.
Local Open Scope Z_scope.
Local Open Scope list_scope.

(** ** Python string operations *)

Module PyStr.

Definition is_upper (c : ascii) : bool :=
  let n := N_of_ascii c in ((65 <=? n) && (n <=? 90))%N.

Definition is_lower (c : ascii) : bool :=
  let n := N_of_ascii c in ((97 <=? n) && (n <=? 122))%N.

Definition is_digit (c : ascii) : bool :=
  let n := N_of_ascii c in ((48 <=? n) && (n <=? 57))%N.

Definition is_alpha (c : ascii) : bool := is_upper c || is_lower c.

(** The letters above 127 that have a lower case below 256: the code
    points 192 to 222 but for the multiplication sign, 215. *)
Definition is_latin1_upper (c : ascii) : bool :=
  let n := N_of_ascii c in ((192 <=? n) && (n <=? 222) && negb (n =? 215))%N.

Definition lower_char (c : ascii) : ascii :=
  if is_upper c || is_latin1_upper c then ascii_of_N (N_of_ascii c + 32) else c.

(** [s.lower()] *)
Fixpoint lower (s : string) : string :=
  match s with
  | EmptyString => EmptyString
  | String c s' => String (lower_char c) (lower s')
  end.

Definition eqb_char (a b : ascii) : bool := Ascii.eqb a b.

(** [sub in s] *)
Fixpoint contains (sub s : string) : bool :=
  String.prefix sub s ||
  match s with
  | EmptyString => false
  | String _ s' => contains sub s'
  end.

(** [c in s] for a single character *)
Fixpoint has_char (c : ascii) (s : string) : bool :=
  match s with
  | EmptyString => false
  | String a s' => eqb_char a c || has_char c s'
  end.

(** [s.find(c)], [None] standing for [-1] *)
Fixpoint find (c : ascii) (s : string) : option nat :=
  match s with
  | EmptyString => None
  | String a s' =>
      if eqb_char a c then Some O
      else match find c s' with Some i => Some (S i) | None => None end
  end.

(** [s.rfind(c)], [None] standing for [-1] *)
Fixpoint rfind (c : ascii) (s : string) : option nat :=
  match s with
  | EmptyString => None
  | String a s' =>
      match rfind c s' with
      | Some i => Some (S i)
      | None => if eqb_char a c then Some O else None
      end
  end.

(** [s[:n]] and [s[n:]] *)
Fixpoint take (n : nat) (s : string) : string :=
  match n, s with
  | S n', String c s' => String c (take n' s')
  | _, _ => EmptyString
  end.

Fixpoint drop (n : nat) (s : string) : string :=
  match n, s with
  | S n', String _ s' => drop n' s'
  | _, _ => s
  end.

(** [s.find(c, start)] *)
Definition find_from (c : ascii) (start : nat) (s : string) : option nat :=
  match find c (drop start s) with
  | Some i => Some (start + i)%nat
  | None => None
  end.

(** [s.split(c)] for a one-character separator: never the empty list *)
Fixpoint split (c : ascii) (s : string) : list string :=
  match s with
  | EmptyString => [EmptyString]
  | String a s' =>
      if eqb_char a c then EmptyString :: split c s'
      else match split c s' with
           | w :: ws => String a w :: ws
           | [] => [String a EmptyString]
           end
  end.

(** [s.split(c, 1)[0]]: the text before the first [c], all of [s] when
    there is none *)
Definition before (c : ascii) (s : string) : string :=
  match find c s with Some i => take i s | None => s end.

(** [s.replace(c, "")] *)
Fixpoint remove (c : ascii) (s : string) : string :=
  match s with
  | EmptyString => EmptyString
  | String a s' => if eqb_char a c then remove c s' else String a (remove c s')
  end.

(** [s.lstrip(chars)] with the set of characters given as a predicate *)
Fixpoint lstrip (p : ascii -> bool) (s : string) : string :=
  match s with
  | String a s' => if p a then lstrip p s' else s
  | EmptyString => EmptyString
  end.

Fixpoint all (p : ascii -> bool) (s : string) : bool :=
  match s with
  | EmptyString => true
  | String a s' => p a && all p s'
  end.

(** [sep.join(parts)] *)
Fixpoint join (sep : string) (parts : list string) : string :=
  match parts with
  | [] => EmptyString
  | [p] => p
  | p :: ps => p +:+ sep +:+ join sep ps
  end.

(** [s.endswith(c)] *)
Fixpoint ends_with (c : ascii) (s : string) : bool :=
  match s with
  | EmptyString => false
  | String a EmptyString => eqb_char a c
  | String _ s' => ends_with c s'
  end.

(** [s.partition(c)[2]]: the text after the first [c], empty when there is
    none *)
Definition after (c : ascii) (s : string) : string :=
  match find c s with Some i => drop (S i) s | None => EmptyString end.

(** [s.rpartition(c)[2]]: the text after the last [c], all of [s] when
    there is none *)
Definition after_last (c : ascii) (s : string) : string :=
  match rfind c s with Some i => drop (S i) s | None => s end.

(** [int(s, base)] of a string of digits, [value] giving the value of a
    digit *)
Fixpoint int_of (base : N) (value : ascii -> N) (acc : N) (s : string) : N :=
  match s with
  | EmptyString => acc
  | String c s' => int_of base value (acc * base + value c)%N s'
  end.

Definition digit_value (c : ascii) : N := (N_of_ascii c - 48)%N.

(** The characters of [0123456789abcdefABCDEF], and their values *)
Definition is_hex_digit (c : ascii) : bool :=
  let n := N_of_ascii c in
  (is_digit c || ((65 <=? n) && (n <=? 70)) || ((97 <=? n) && (n <=? 102)))%N.

Definition hex_value (c : ascii) : N :=
  let n := N_of_ascii c in
  (if is_digit c then n - 48 else if n <=? 70 then n - 55 else n - 87)%N.

(** ['%x' % n] *)
Definition hex (n : N) : string := NilZero.string_of_uint (N.to_hex_uint n).

(** [c.isprintable()] for a code point below 256 *)
Definition is_printable (c : ascii) : bool :=
  let n := N_of_ascii c in
  (((32 <=? n) && (n <=? 126)) || ((161 <=? n) && negb (n =? 173)))%N.

(** One character of [repr(s)] between the quotes [quote]: a backslash
    before the quote and the backslash, the escapes of the tabulation, the
    line feed and the carriage return, and two hexadecimal digits for any
    other character that cannot be printed. *)
Definition repr_char (quote c : ascii) : string :=
  if eqb_char c quote || eqb_char c "\" then String "\" (String c EmptyString)
  else if eqb_char c "009" then "\t"
  else if eqb_char c "010" then "\n"
  else if eqb_char c "013" then "\r"
  else if is_printable c then String c EmptyString
  else "\x" +:+ (if (N_of_ascii c <? 16)%N then "0" else EmptyString)
            +:+ hex (N_of_ascii c).

Fixpoint repr_chars (quote : ascii) (s : string) : string :=
  match s with
  | EmptyString => EmptyString
  | String c s' => repr_char quote c +:+ repr_chars quote s'
  end.

(** [repr(s)]: between double quotes when [s] holds a single quote and no
    double one, between single quotes otherwise. *)
Definition repr (s : string) : string :=
  let quote : ascii :=
    (if has_char "'" s && negb (has_char "034" s) then "034" else "'")%char in
  String quote (repr_chars quote s) +:+ String quote EmptyString.

End PyStr.

(** ** Exceptions

    The classes the module catches or raises.  Every class of
    [requests.exceptions] derives from [RequestException]; the other
    classes are the builtin ones and [zipfile.BadZipFile]. *)

Inductive request_error :=
  | HTTPError | ConnectionError | Timeout | MissingSchema | InvalidURL
  | OtherRequestException.

Inductive os_error :=
  | FileExistsError | FileNotFoundError | NotADirectoryError
  | IsADirectoryError | OtherOSError.

Inductive exn_class :=
  | RequestException (k : request_error)
  | TypeError
  | ValueError
  | RuntimeError
  | BadZipFile
  | OSError (k : os_error)
  | NotImplementedError
  | IndexError
  | KeyError
  | OtherException.

(** An exception object: its class, [str(e)], and [e.__cause__] as set by
    [raise ... from e]. *)
#[warnings="-register-all"]
Inductive exn :=
  | Exn (cls : exn_class) (msg : string) (cause : option exn).

Definition exn_cls (e : exn) : exn_class := let 'Exn c _ _ := e in c.
Definition str (e : exn) : string := let 'Exn _ m _ := e in m.
Definition exn_cause (e : exn) : option exn := let 'Exn _ _ c := e in c.

(** [isinstance(e, requests.exceptions.RequestException)] *)
Definition is_RequestException (e : exn) : bool :=
  match exn_cls e with RequestException _ => true | _ => false end.

Definition is_TypeError (e : exn) : bool :=
  match exn_cls e with TypeError => true | _ => false end.

Definition is_BadZipFile (e : exn) : bool :=
  match exn_cls e with BadZipFile => true | _ => false end.

Inductive outcome (A : Type) :=
  | Returns (a : A)
  | Raises (e : exn).
Arguments Returns {A} a.
Arguments Raises {A} e.

(** ** [ipaddress.ip_address]

    The addresses that [IPv4Address] and [IPv6Address] make of a string;
    [None] stands for the [AddressValueError] of these classes, which
    [ip_address] catches. *)

Module IpAddress.
Import PyStr.

Inductive ip :=
  | IPv4Address (ip : N)
  | IPv6Address (ip : N) (scope_id : option string).

(** [IPv4Address._parse_octet]: one to three decimal digits, without a
    leading zero, for a number up to 255 *)
Definition parse_octet (octet_str : string) : option N :=
  if bool_decide (octet_str = "") then None
  else if negb (all is_digit octet_str) then None
  else if (3 <? String.length octet_str)%nat then None
  else if bool_decide (octet_str ≠ "0") && String.prefix "0" octet_str then None
  else
    let octet_int := int_of 10 digit_value 0 octet_str in
    if (255 <? octet_int)%N then None else Some octet_int.

(** [int.from_bytes(octets, 'big')] *)
Definition from_bytes (octets : list N) : N :=
  foldl (fun acc o => acc * 256 + o)%N 0%N octets.

(** [IPv4Address(address)._ip] *)
Definition ipv4_int (address : string) : option N :=
  if has_char "/" address then None
  else if bool_decide (address = "") then None
  else
    let octets := split "." address in
    if negb (length octets =? 4)%nat then None
    else from_bytes <$> mapM parse_octet octets.

(** [IPv6Address._split_scope_id] *)
Definition split_scope_id (ip_str : string) : option (string * option string) :=
  match find "%" ip_str with
  | None => Some (ip_str, None)
  | Some i =>
      let scope_id := drop (S i) ip_str in
      if bool_decide (scope_id = "") || has_char "%" scope_id then None
      else Some (take i ip_str, Some scope_id)
  end.

(** [IPv6Address._parse_hextet]: one to four hexadecimal digits; on the
    empty string it is [int] that raises. *)
Definition parse_hextet (hextet_str : string) : option N :=
  if negb (all is_hex_digit hextet_str) then None
  else if (4 <? String.length hextet_str)%nat then None
  else if bool_decide (hextet_str = "") then None
  else Some (int_of 16 hex_value 0 hextet_str).

(** The loop that looks for [::] among [parts[1:-1]], [i] being the index
    of the head of [inner]: the index of the one empty part, [None] when
    there is none; the outer [None] is for a second one. *)
Fixpoint find_skip (i : nat) (inner : list string) (skip_index : option nat)
  : option (option nat) :=
  match inner with
  | [] => Some skip_index
  | part :: inner' =>
      if bool_decide (part = "") then
        match skip_index with
        | Some _ => None
        | None => find_skip (S i) inner' (Some i)
        end
      else find_skip (S i) inner' skip_index
  end.

(** [ip_int <<= 16; ip_int |= hextet] over the hextets *)
Definition shift_in (ip_int : N) (hextets : list N) : N :=
  foldl (fun acc h => N.lor (N.shiftl acc 16) h) ip_int hextets.

(** [IPv6Address._ip_int_from_string] *)
Definition ipv6_int (ip_str : string) : option N :=
  if bool_decide (ip_str = "") then None
  else
    let parts := split ":" ip_str in
    if (length parts <? 3)%nat then None
    else
      parts ← (if has_char "." (List.last parts "") then
                 ipv4 ← ipv4_int (List.last parts "");
                 Some (removelast parts
                       ++ [hex (N.land (N.shiftr ipv4 16) 65535);
                           hex (N.land ipv4 65535)])
               else Some parts);
      if (9 <? length parts)%nat then None
      else
        skip_index ← find_skip 1 (removelast (tail parts)) None;
        '(parts_hi, parts_lo, parts_skipped) ←
          match skip_index with
          | Some skip_index =>
              let parts_hi := skip_index in
              let parts_lo := (length parts - skip_index - 1)%nat in
              parts_hi ← (if bool_decide (hd "" parts = "") then
                            if (parts_hi - 1 =? 0)%nat then Some O else None
                          else Some parts_hi);
              parts_lo ← (if bool_decide (List.last parts "" = "") then
                            if (parts_lo - 1 =? 0)%nat then Some O else None
                          else Some parts_lo);
              if (8 - Z.of_nat (parts_hi + parts_lo) <? 1)%Z then None
              else Some (parts_hi, parts_lo, (8 - (parts_hi + parts_lo))%nat)
          | None =>
              if negb (length parts =? 8)%nat then None
              else if bool_decide (hd "" parts = "") then None
              else if bool_decide (List.last parts "" = "") then None
              else Some (length parts, O, O)
          end;
        his ← mapM parse_hextet (firstn parts_hi parts);
        los ← mapM parse_hextet (skipn (length parts - parts_lo) parts);
        Some (shift_in
                (N.shiftl (shift_in 0 his) (16 * N.of_nat parts_skipped)) los).

(** [IPv6Address(address)] *)
Definition ipv6 (address : string) : option ip :=
  if has_char "/" address then None
  else
    '(addr_str, scope_id) ← split_scope_id address;
    ip ← ipv6_int addr_str;
    Some (IPv6Address ip scope_id).

Definition ip_address (address : string) : outcome ip :=
  match ipv4_int address with
  | Some ip => Returns (IPv4Address ip)
  | None =>
      match ipv6 address with
      | Some a => Returns a
      | None =>
          Raises (Exn ValueError
                    (repr address
                       +:+ " does not appear to be an IPv4 or IPv6 address")
                    None)
      end
  end.

End IpAddress.

(** ** [urllib.parse.urlparse]

    [urlsplit] and [urlparse] with the checks of a network location that
    holds brackets.  [_checknetloc] is left out: it raises when the
    compatibility normalisation (NFKC) brings one of [/?#@:] into the
    network location, which it does for no code point below 256. *)

Module UrlParse.
Import PyStr.

Record ParseResult := {
  scheme : string;
  netloc : string;
  path : string;
  params : string;
  query : string;
  fragment : string
}.

Definition c0_control_or_space (c : ascii) : bool :=
  (N_of_ascii c <=? 32)%N.

(** [scheme_chars]: letters, digits and [+-.] *)
Definition scheme_char (c : ascii) : bool :=
  is_alpha c || is_digit c || eqb_char c "+" || eqb_char c "-" || eqb_char c ".".

Definition uses_params : list string :=
  [""; "ftp"; "hdl"; "prospero"; "http"; "imap"; "https"; "shttp"; "rtsp";
   "rtspu"; "sip"; "sips"; "mms"; "sftp"; "tel"].

(** The scheme, when the text before the first colon is one, and the rest. *)
Definition split_scheme (url : string) : string * string :=
  match find ":" url, url with
  | Some (S i), String c0 _ =>
      if is_alpha c0 && all scheme_char (take (S i) url)
      then (lower (take (S i) url), drop (S (S i)) url)
      else ("", url)
  | _, _ => ("", url)
  end.

(** [_splitnetloc(url, 2)] *)
Definition splitnetloc (url : string) : string * string :=
  let delim :=
    foldr (fun c d => match find_from c 2 url with
                      | Some w => Nat.min d w
                      | None => d
                      end)
          (String.length url) ["/"; "?"; "#"]%char in
  (take (delim - 2) (drop 2 url), drop delim url).

(** The regular expression [\Av[a-fA-F0-9]+\..+\Z] of an IPvFuture
    address: after the [v], hexadecimal digits, at least one, up to the
    first dot, and after that dot at least one character, none of them a
    line feed. *)
Definition ipvfuture (hostname : string) : bool :=
  let s := drop 1 hostname in
  String.prefix "v" hostname &&
  match find "." s with
  | Some i =>
      (0 <? i)%nat && all is_hex_digit (take i s)
      && negb (bool_decide (drop (S i) s = ""))
      && negb (has_char "010" (drop (S i) s))
  | None => false
  end.

(** [_check_bracketed_host] *)
Definition check_bracketed_host (hostname : string) : outcome unit :=
  if String.prefix "v" hostname then
    if ipvfuture hostname then Returns tt
    else Raises (Exn ValueError "IPvFuture address is invalid" None)
  else
    match IpAddress.ip_address hostname with
    | Returns (IpAddress.IPv4Address _) =>
        Raises (Exn ValueError "An IPv4 address cannot be in brackets" None)
    | Returns (IpAddress.IPv6Address _ _) => Returns tt
    | Raises e => Raises e
    end.

(** [_check_bracketed_netloc]: the host is what follows the last [@]; no
    data is allowed before its bracket, nor after the closing one but for
    a port.  When the brackets are before the [@], the host is checked all
    the same, up to its colon. *)
Definition check_bracketed_netloc (netloc : string) : outcome unit :=
  let hostname_and_port := after_last "@" netloc in
  match find "[" hostname_and_port with
  | Some i =>
      if negb (i =? 0)%nat then Raises (Exn ValueError "Invalid IPv6 URL" None)
      else
        let bracketed := drop 1 hostname_and_port in
        let hostname := before "]" bracketed in
        let port := after "]" bracketed in
        if negb (bool_decide (port = "")) && negb (String.prefix ":" port)
        then Raises (Exn ValueError "Invalid IPv6 URL" None)
        else check_bracketed_host hostname
  | None => check_bracketed_host (before ":" hostname_and_port)
  end.

(** [_splitparams] *)
Definition splitparams (url : string) : string * string :=
  if has_char "/" url then
    match find_from ";" (default O (rfind "/" url)) url with
    | Some i => (take i url, drop (S i) url)
    | None => (url, "")
    end
  else
    match find ";" url with
    | Some i => (take i url, drop (S i) url)
    | None => (take (String.length url - 1) url, url)
    end.

Definition urlparse (url0 : string) : outcome ParseResult :=
  let url := lstrip c0_control_or_space url0 in
  let url := remove "009" (remove "013" (remove "010" url)) in
  let '(sch, url) := split_scheme url in
  let '(loc, url, checked) :=
    if String.prefix "//" url then
      let '(loc, rest) := splitnetloc url in
      (loc, rest,
       if xorb (has_char "[" loc) (has_char "]" loc)
       then Raises (Exn ValueError "Invalid IPv6 URL" None)
       else if has_char "[" loc && has_char "]" loc
       then check_bracketed_netloc loc
       else Returns tt)
    else ("", url, Returns tt) in
  match checked with
  | Raises e => Raises e
  | Returns _ =>
    let frag := match find "#" url with Some i => drop (S i) url | None => "" end in
    let url := before "#" url in
    let qry := match find "?" url with Some i => drop (S i) url | None => "" end in
    let url := before "?" url in
    let '(url, prm) :=
      if bool_decide (sch ∈ uses_params) && has_char ";" url
      then splitparams url else (url, "") in
    Returns {| scheme := sch; netloc := loc; path := url; params := prm;
               query := qry; fragment := frag |}
  end.

End UrlParse.

(** ** [pathlib.Path]: [name] and [suffix] of a POSIX path *)

Module PurePath.
Import PyStr.

(** The components kept by the path parser: empty ones and [.] are dropped. *)
Definition parts (p : string) : list string :=
  filter (fun x => x ≠ "" ∧ x ≠ ".") (split "/" p).

(** [Path(p).name]: the final component, the empty string when there is none. *)
Definition name (p : string) : string := List.last (parts p) "".

(** [Path(p).suffix]: from the last dot of the name on, when that dot is
    neither its first nor its last character. *)
Definition suffix (p : string) : string :=
  let n := name p in
  match rfind "." n with
  | Some i =>
      if ((0 <? i) && (i <? String.length n - 1))%nat then drop i n else ""
  | None => ""
  end.

End PurePath.

(** ** The world outside the program

    What the remote servers answer, what [zipfile] reads from a byte
    string, the calls the program has made so far and the file system. *)

(** A [requests.Response]: [headers] is the case-insensitive dictionary,
    keyed by the lower-cased header name; [content] is what reading the body
    gives, which with [stream=True] happens only when it is asked for. *)
Record Response := {
  status_code : Z;
  reason : string;
  response_url : string;
  headers : gmap string string;
  content : outcome string
}.

(** What becomes of a member of an archive that is extracted: it is read
    to its end, or [ZipFile.open] raises before anything is written, or the
    reading raises after [copied] has been written, as a wrong check sum
    does at the end of the data. *)
Inductive reading :=
  | Read (data : string)
  | Unopened (e : exn)
  | Torn (copied : string) (e : exn).

(** A member of an archive: its name and what reading it gives. *)
Record ZipInfo := {
  filename : string;
  member_read : reading
}.

(** The data of a member, or the exception reading it raises. *)
Definition member_data (m : ZipInfo) : outcome string :=
  match member_read m with
  | Read data => Returns data
  | Unopened e | Torn _ e => Raises e
  end.


Inductive node :=
  | Dir
  | File (data : string).

(** The library calls of [nodes.py], in the order they are made. *)
Inductive call :=
  | requests_head (url : string)
  | requests_get (url : string)
  | os_makedirs (name : string)
  | zipfile_ZipFile
  | ZipFile_extractall (path : string).

Record World := {
  remote_head : string -> outcome Response;
  remote_get : string -> outcome Response;
  zip_members : string -> outcome (list ZipInfo);
  calls : list call;
  fs : gmap (list string) node
}.

Definition record_call (c : call) (w : World) : World :=
  {| remote_head := remote_head w; remote_get := remote_get w;
     zip_members := zip_members w; calls := calls w ++ [c]; fs := fs w |}.

Definition set_fs (f : gmap (list string) node) (w : World) : World :=
  {| remote_head := remote_head w; remote_get := remote_get w;
     zip_members := zip_members w; calls := calls w; fs := f |}.

(** ** Computations: state passing with exceptions *)

Definition M (A : Type) : Type := World -> outcome A * World.

#[global] Instance M_ret : MRet M := fun A a w => (Returns a, w).

#[global] Instance M_bind : MBind M := fun A B k m w =>
  match m w with
  | (Returns a, w') => k a w'
  | (Raises e, w') => (Raises e, w')
  end.

Definition raise {A} (e : exn) : M A := fun w => (Raises e, w).

(** [try: m  except Exception as e: h e] *)
Definition try_except {A} (m : M A) (h : exn -> M A) : M A := fun w =>
  match m w with
  | (Returns a, w') => (Returns a, w')
  | (Raises e, w') => h e w'
  end.

Definition lift {A} (o : outcome A) : M A := fun w => (o, w).

Definition perform {A} (c : call) (f : World -> outcome A) : M A :=
  fun w => (f w, record_call c w).

(** ** [requests] *)

Module Requests.

(** [requests.head(url, allow_redirects=True, timeout=5)] *)
Definition head (url : string) : M Response :=
  perform (requests_head url) (fun w => remote_head w url).

(** [requests.get(url, stream=True)] *)
Definition get (url : string) : M Response :=
  perform (requests_get url) (fun w => remote_get w url).

Definition http_error_msg (kind : string) (r : Response) : string :=
  pretty (status_code r) +:+ " " +:+ kind +:+ " Error: " +:+ reason r
    +:+ " for url: " +:+ response_url r.

(** [response.raise_for_status()] *)
Definition raise_for_status (r : Response) : M unit :=
  if (400 <=? status_code r) && (status_code r <? 500) then
    raise (Exn (RequestException HTTPError) (http_error_msg "Client" r) None)
  else if (500 <=? status_code r) && (status_code r <? 600) then
    raise (Exn (RequestException HTTPError) (http_error_msg "Server" r) None)
  else mret tt.

(** [response.headers.get(key, dflt)] *)
Definition headers_get (r : Response) (key dflt : string) : string :=
  default dflt (headers r !! PyStr.lower key).

(** [response.content] *)
Definition read_content (r : Response) : M string := lift (content r).

End Requests.

(** ** [os] and [os.path]

    A node of the file system is named by its normalised components
    ([os.path.normpath]), with ["/"] in front when it is absolute; the
    current directory is the empty list, and the directories above it are
    the lists of [..].  There are no symbolic links.  [os.makedirs] follows
    the name it is given as it is written, component by component;
    [zipfile] normalises the paths it makes before it uses them. *)

Module Os.

(** The root, the current directory and the directories above it are
    always there. *)
Definition is_root (k : list string) : bool :=
  bool_decide (k = ["/"] ∨ Forall (fun c => c = "..") k).

Fixpoint norm (abs : bool) (acc : list string) (comps : list string)
  : list string :=
  match comps with
  | [] => reverse acc
  | c :: cs =>
      if bool_decide (c = "" ∨ c = ".") then norm abs acc cs
      else if bool_decide (c = "..") then
        match acc with
        | [] => if abs then norm abs [] cs else norm abs [".."] cs
        | a :: acc' =>
            if bool_decide (a = "..") then norm abs (c :: acc) cs
            else norm abs acc' cs
        end
      else norm abs (c :: acc) cs
  end.

Definition locate (p : string) : list string :=
  let abs := String.prefix "/" p in
  (if abs then ["/"] else []) ++ norm abs [] (PyStr.split "/" p).

(** [os.path.join(a, b)] *)
Definition path_join (a b : string) : string :=
  if String.prefix "/" b then b
  else if bool_decide (a = "") || PyStr.ends_with "/" a then a +:+ b
  else a +:+ "/" +:+ b.

(** [os.path.dirname] on components *)
Definition dirname (k : list string) : list string :=
  if is_root k then k else removelast k.

Definition stat (f : gmap (list string) node) (k : list string) : option node :=
  if is_root k then Some Dir else f !! k.

Definition exists_ (f : gmap (list string) node) (k : list string) : bool :=
  match stat f k with Some _ => true | None => false end.

Definition isdir (f : gmap (list string) node) (k : list string) : bool :=
  match stat f k with Some Dir => true | _ => false end.

(** The error number and the text of an [OSError].  [str(e)] goes on with
    a colon and the name given to the system call, between quotes, which
    is left out here: no property below depends on the text. *)
Definition strerror (k : os_error) : string :=
  match k with
  | FileExistsError => "[Errno 17] File exists"
  | FileNotFoundError => "[Errno 2] No such file or directory"
  | NotADirectoryError => "[Errno 20] Not a directory"
  | IsADirectoryError => "[Errno 21] Is a directory"
  | OtherOSError => "[Errno 5] Input/output error"
  end.

Definition os_exn (k : os_error) : exn := Exn (OSError k) (strerror k) None.

(** [os.mkdir] of the node [k] *)
Definition mkdir (k : list string) (f : gmap (list string) node)
  : outcome unit * gmap (list string) node :=
  match stat f k with
  | Some _ => (Raises (os_exn FileExistsError), f)
  | None =>
      match stat f (dirname k) with
      | Some Dir => (Returns tt, <[k := Dir]> f)
      | Some (File _) => (Raises (os_exn NotADirectoryError), f)
      | None => (Raises (os_exn FileNotFoundError), f)
      end
  end.

(** The last step of [os.makedirs], at the node [k] that the name leads
    to: [mkdir], where an [OSError] is let through unless [exist_ok] holds
    and the node is a directory. *)
Definition create (exist_ok : bool) (k : list string)
    (f : gmap (list string) node) : outcome unit * gmap (list string) node :=
  match mkdir k f with
  | (Returns _, f') => (Returns tt, f')
  | (Raises e, f') =>
      if exist_ok && isdir f' k then (Returns tt, f') else (Raises e, f')
  end.

(** *** Names as they are written

    The components of a name between its slashes, and the walk along
    them: [acc] is the directory reached so far, its components in reverse
    order; a [.] stays there, a [..] goes one up. *)

Definition components (name : string) : list string :=
  filter (fun c => c ≠ "") (PyStr.split "/" name).

Definition step (abs : bool) (acc : list string) (c : string) : list string :=
  if bool_decide (c = "" ∨ c = ".") then acc
  else if bool_decide (c = "..") then
    match acc with
    | [] => if abs then [] else [".."]
    | a :: acc' => if bool_decide (a = "..") then c :: acc else acc'
    end
  else c :: acc.

Definition key (abs : bool) (acc : list string) : list string :=
  (if abs then ["/"] else []) ++ reverse acc.

(** Where the components [cs] lead to. *)
Definition loc (abs : bool) (cs : list string) : list string :=
  foldl (step abs) [] cs.

(** The look-up of a name by the system: every node that is passed has to
    be a directory, [ENOTDIR] when it is a file and [ENOENT] when it is
    missing.  The node the name leads to need not be there. *)
Fixpoint resolve (f : gmap (list string) node) (abs : bool)
    (acc : list string) (cs : list string) : os_error + list string :=
  match cs with
  | [] => inr acc
  | c :: cs' =>
      match stat f (key abs acc) with
      | Some Dir => resolve f abs (step abs acc c) cs'
      | Some (File _) => inl NotADirectoryError
      | None => inl FileNotFoundError
      end
  end.

(** [os.path.exists(name)] *)
Definition exists_path (f : gmap (list string) node) (abs : bool)
    (cs : list string) : bool :=
  match resolve f abs [] cs with
  | inr acc => exists_ f (key abs acc)
  | inl _ => false
  end.

(** [try: mkdir(name) except OSError: if not exist_ok or not
    path.isdir(name): raise] *)
Definition create_path (exist_ok : bool) (abs : bool) (cs : list string)
    (f : gmap (list string) node) : outcome unit * gmap (list string) node :=
  match resolve f abs [] cs with
  | inr acc => create exist_ok (key abs acc) f
  | inl c => (Raises (os_exn c), f)
  end.

(** [os.makedirs(name, exist_ok=exist_ok)], by recursion on the components
    of [name] from the last one: [r] is [name] reversed, [tail] is its last
    component and [head] is the name without it.  The empty [head] is the
    current directory or the root, which is there.  A [FileExistsError] of
    the recursive call is passed over, and nothing is left to do when
    [tail] is [.] and [head] had to be made. *)
Fixpoint makedirs_rev (exist_ok : bool) (abs : bool) (r : list string)
    (f : gmap (list string) node) : outcome unit * gmap (list string) node :=
  match r with
  | [] => create_path exist_ok abs [] f
  | tail :: head =>
      if negb (exists_path f abs (reverse head)) then
        match makedirs_rev exist_ok abs head f with
        | (Returns _, f1) =>
            if bool_decide (tail = ".") then (Returns tt, f1)
            else create_path exist_ok abs (reverse r) f1
        | (Raises e, f1) =>
            match exn_cls e with
            | OSError FileExistsError =>
                if bool_decide (tail = ".") then (Returns tt, f1)
                else create_path exist_ok abs (reverse r) f1
            | _ => (Raises e, f1)
            end
        end
      else create_path exist_ok abs (reverse r) f
  end.

Definition makedirs (exist_ok : bool) (name : string)
    (f : gmap (list string) node) : outcome unit * gmap (list string) node :=
  if bool_decide (name = "") then (Raises (os_exn FileNotFoundError), f)
  else makedirs_rev exist_ok (String.prefix "/" name)
         (reverse (components name)) f.

(** A normalised path is absolute when it starts at the root; [rel k] is
    what follows the root. *)
Definition is_abs (k : list string) : bool :=
  match k with x :: _ => bool_decide (x = "/") | [] => false end.

Definition rel (k : list string) : list string :=
  match k with
  | x :: k' => if bool_decide (x = "/") then k' else k
  | [] => []
  end.

(** [os.makedirs] of a normalised path [k], as [zipfile] calls it. *)
Definition makedirs_at (exist_ok : bool) (k : list string)
    (f : gmap (list string) node) : outcome unit * gmap (list string) node :=
  makedirs_rev exist_ok (is_abs k) (reverse (rel k)) f.

(** [open(k, "wb")] followed by writing [data] *)
Definition write_file (k : list string) (data : string)
    (f : gmap (list string) node) : outcome unit * gmap (list string) node :=
  match stat f (dirname k) with
  | Some Dir =>
      match stat f k with
      | Some Dir => (Raises (os_exn IsADirectoryError), f)
      | _ => (Returns tt, <[k := File data]> f)
      end
  | Some (File _) => (Raises (os_exn NotADirectoryError), f)
  | None => (Raises (os_exn FileNotFoundError), f)
  end.

End Os.

(** Running a file-system operation on the world. *)
Definition on_fs
    (op : gmap (list string) node -> outcome unit * gmap (list string) node)
  : M unit := fun w => let '(o, f) := op (fs w) in (o, set_fs f w).

(** ** [zipfile.ZipFile]

    [extractall] and [_extract_member].  The archive itself is what
    [zip_members] reads from the bytes: the list of its members, or the
    exception [zipfile.ZipFile] raises. *)

Module Zip.

(** [ZipFile.getinfo(name)]: the last member of that name. *)
Definition getinfo (members : list ZipInfo) (name : string) : option ZipInfo :=
  List.last (Some <$> filter (fun m => filename m = name) members) None.

(** [ZipInfo.is_dir()] is [filename[-1] == '/'], for a name that is not
    empty. *)
Definition is_dir (m : ZipInfo) : bool := PyStr.ends_with "/" (filename m).

(** The components of a member's name that are kept: empty ones, [.] and
    [..] are removed, so that the target stays below the directory. *)
Definition sanitize (name : string) : list string :=
  filter (fun x => x ∉ [""; "."; ".."]) (PyStr.split "/" name).

Definition arcname (m : ZipInfo) : list string := sanitize (filename m).

(** [os.path.normpath(os.path.join(targetpath, arcname))], where [arcname]
    is the sanitized components joined again. *)
Definition target (targetpath : string) (m : ZipInfo) : list string :=
  Os.locate (Os.path_join targetpath (PyStr.join "/" (arcname m))).

(** [_extract_member]: the directories above the target are made, then a
    directory member is made, and any other member is opened, its target is
    opened for writing, and the data are copied.  On an empty name,
    [member.is_dir()] raises the [IndexError] of [filename[-1]]. *)
Definition extract_member (m : ZipInfo) (targetpath : string) : M unit :=
  let k := target targetpath m in
  let upperdirs := Os.dirname k in
  _ ← on_fs (fun f =>
         if negb (Os.exists_ f upperdirs)
         then Os.makedirs_at false upperdirs f else (Returns tt, f));
  if bool_decide (filename m = "") then
    raise (Exn IndexError "string index out of range" None)
  else if is_dir m then
    on_fs (fun f => if negb (Os.isdir f k) then Os.mkdir k f else (Returns tt, f))
  else
    match member_read m with
    | Unopened e => raise e
    | Read data => on_fs (Os.write_file k data)
    | Torn copied e => _ ← on_fs (Os.write_file k copied); raise e
    end.

Fixpoint extract_names (members : list ZipInfo) (names : list string)
    (targetpath : string) : M unit :=
  match names with
  | [] => mret tt
  | n :: ns =>
      match getinfo members n with
      | Some m => _ ← extract_member m targetpath;
                  extract_names members ns targetpath
      | None =>
          raise (Exn KeyError
                   (PyStr.repr ("There is no item named " +:+ PyStr.repr n
                                  +:+ " in the archive")) None)
      end
  end.

(** [zip_ref.extractall(path)]: every name of [namelist()], in order. *)
Definition extractall (members : list ZipInfo) (path : string) : M unit :=
  _ ← perform (ZipFile_extractall path) (fun _ => Returns tt);
  extract_names members (filename <$> members) path.

(** [zipfile.ZipFile(content, "r")] *)
Definition open (content : string) : M (list ZipInfo) :=
  perform zipfile_ZipFile (fun w => zip_members w content).

End Zip.

(** ** The functions of [nodes.py] *)

(** [check_url_is_a_zip_from_header], lines 16-56 *)
Definition check_url_is_a_zip_from_header (url : string) : M (bool * string) :=
  try_except
    (response ← Requests.head url;
     _ ← Requests.raise_for_status response;
     let content_type :=
       PyStr.lower (Requests.headers_get response "Content-Type" "") in
     if PyStr.contains "application/zip" content_type
        || PyStr.contains "application/x-zip-compressed" content_type
     then mret (true, "Based on Content-Type header: '" +:+ content_type
                        +:+ "', it is identified as a ZIP file.")
     else mret (false, "Content-Type header '" +:+ content_type
                         +:+ "' does not indicate a ZIP file."))
    (fun e =>
       if is_RequestException e
       then mret (false, "Could not check URL due to network error or invalid URL: "
                           +:+ str e)
       else mret (false, "An unexpected error occurred: " +:+ str e)).

(** Lines 88-115 of [download_file_from_url]: the verdict [(is_zip, message)]
    on the parsed path. *)
Definition verify_file_type (url path : string) (omit_verification : bool)
  : M (bool * string) :=
  if omit_verification then
    mret (true, "Verification of the file type is omitted, assuming it is a ZIP file.")
  else
    let file_extension := PyStr.lower (PurePath.suffix path) in
    if bool_decide (file_extension = ".zip") then
      mret (true, "Based on URL extension: '" +:+ file_extension
                    +:+ "', it appears to be a ZIP file.")
    else if bool_decide (file_extension = "") then
      mret (false, "The URL does not have a file extension, cannot determine if it is a ZIP file.")
    else if PyStr.contains "." file_extension then
      mret (false, "Based on URL extension: '" +:+ file_extension
                     +:+ "', it does not appear to be a ZIP file.")
    else check_url_is_a_zip_from_header url.

(** Lines 121-135 of [download_file_from_url]: the download itself. *)
Definition download_content (url file_name : string) : M (string * string) :=
  try_except
    (response ← Requests.get url;
     _ ← Requests.raise_for_status response;
     url_content ← Requests.read_content response;
     mret (url_content, file_name))
    (fun e =>
       if is_RequestException e then
         raise (Exn RuntimeError ("Error downloading the file: " +:+ str e) (Some e))
       else if is_TypeError e then
         raise (Exn ValueError
                  ("Invalid URL: " +:+ url +:+ ". Error: " +:+ str e) (Some e))
       else raise e).

(** [download_file_from_url], lines 59-139 *)
Definition download_file_from_url (url : string) (omit_verification : bool)
  : M (string * string) :=
  parsed_url ← lift (UrlParse.urlparse url);
  let path := UrlParse.path parsed_url in
  let file_name := PurePath.name path in
  '(is_zip, message) ← verify_file_type url path omit_verification;
  if is_zip || omit_verification then download_content url file_name
  else raise (Exn ValueError
                ("The url provided " +:+ url
                   +:+ " doesn't correspond to a ZIP file. " +:+ message) None).

(** [extract_zip_content], lines 142-166 *)
Definition extract_zip_content (zip_content zip_file_name extract_to_dir : string)
  : M unit :=
  try_except
    (_ ← perform (os_makedirs extract_to_dir) (fun _ => Returns tt);
     _ ← on_fs (Os.makedirs true extract_to_dir);
     zip_ref ← Zip.open zip_content;
     Zip.extractall zip_ref extract_to_dir)
    (fun e =>
       if is_BadZipFile e then
         raise (Exn ValueError
                  ("Error: The downloaded file '" +:+ zip_file_name
                     +:+ "' is not a valid zip file.") (Some e))
       else
         raise (Exn RuntimeError
                  ("An error occurred during unzipping: " +:+ str e) (Some e))).

(** [download_and_extract_zip], lines 169-181 *)
Definition download_and_extract_zip (url extract_to_dir : string)
    (omit_verification : bool) : M unit :=
  '(url_content, file_name) ← download_file_from_url url omit_verification;
  extract_zip_content url_content file_name extract_to_dir.

(** ** The column names of [data_processing/nodes.py] *)

(** [s.replace(old, new)] for a non-empty [old]: the occurrences of [old]
    are replaced from the left, none starting before the one before it has
    ended.  [skip] counts the characters of the occurrence found last that
    are still to be passed over. *)
Fixpoint replace_from (old new : string) (skip : nat) (s : string) : string :=
  match s with
  | EmptyString => EmptyString
  | String c s' =>
      match skip with
      | S k => replace_from old new k s'
      | O =>
          if String.prefix old s
          then new +:+ replace_from old new (String.length old - 1) s'
          else String c (replace_from old new 0 s')
      end
  end.

(** With an empty [old], [new] is put before every character and at the
    end. *)
Fixpoint replace_empty (new s : string) : string :=
  match s with
  | EmptyString => new
  | String c s' => new +:+ String c (replace_empty new s')
  end.

(** [s.replace(old, new)] *)
Definition str_replace (old new s : string) : string :=
  match old with
  | EmptyString => replace_empty new s
  | _ => replace_from old new 0 s
  end.

(** The name given to a column by [preprocess_delivery_data], lines
    166-174. *)
Definition rename_column (col : string) : string :=
  str_replace "perference" "preference"
    (str_replace ")" ""
       (str_replace "(" "_"
          (str_replace "_(" "_"
             (str_replace " " "_" (PyStr.lower col))))).

(** ** Running computations *)

Ltac run :=
  repeat (progress (unfold mbind, M_bind, mret, M_ret, raise, try_except, lift,
                      perform, on_fs; simpl)).

(** * Vocabulary of the properties *)

(** ** Failures of the requests *)

(** What the handlers of the download make of an exception [e]. *)
Definition download_error (url : string) (e : exn) : exn :=
  if is_RequestException e then
    Exn RuntimeError ("Error downloading the file: " +:+ str e) (Some e)
  else if is_TypeError e then
    Exn ValueError ("Invalid URL: " +:+ url +:+ ". Error: " +:+ str e) (Some e)
  else e.

(** The exception, if any, that stops the retrieval of [url]: [requests.get]
    raises, or the status is an HTTP error (4xx or 5xx), or reading the body
    raises. *)
Definition fetch_failure (w : World) (url : string) : option exn :=
  match remote_get w url with
  | Raises e => Some e
  | Returns r =>
      if (400 <=? status_code r) && (status_code r <? 500) then
        Some (Exn (RequestException HTTPError) (Requests.http_error_msg "Client" r) None)
      else if (500 <=? status_code r) && (status_code r <? 600) then
        Some (Exn (RequestException HTTPError) (Requests.http_error_msg "Server" r) None)
      else match content r with
           | Raises e => Some e
           | Returns _ => None
           end
  end.

(** The exception, if any, that stops the probe of [url]: [requests.head]
    raises, or the status is an HTTP error (4xx or 5xx). *)
Definition head_failure (w : World) (url : string) : option exn :=
  match remote_head w url with
  | Raises e => Some e
  | Returns r =>
      if (400 <=? status_code r) && (status_code r <? 500) then
        Some (Exn (RequestException HTTPError) (Requests.http_error_msg "Client" r) None)
      else if (500 <=? status_code r) && (status_code r <? 600) then
        Some (Exn (RequestException HTTPError) (Requests.http_error_msg "Server" r) None)
      else None
  end.

(** A probe that did not succeed, with success meaning a status from 200 to
    299: the request raises, or is answered with any other status. *)
Definition head_not_2xx (w : World) (url : string) : Prop :=
  match remote_head w url with
  | Raises _ => True
  | Returns r => ¬ (200 <= status_code r < 300)
  end.

(** A download that did not succeed, with success meaning a status from 200
    to 299: the request raises, or is answered with any other status. *)
Definition get_not_2xx (w : World) (url : string) : Prop :=
  match remote_get w url with
  | Raises _ => True
  | Returns r => ¬ (200 <= status_code r < 300)
  end.

(** The message the probe gives for the exception [e]. *)
Definition probe_error_message (e : exn) : string :=
  (if is_RequestException e
   then "Could not check URL due to network error or invalid URL: "
   else "An unexpected error occurred: ") +:+ str e.

(** What the handlers of [extract_zip_content] make of an exception [e]. *)
Definition unzip_error (zip_file_name : string) (e : exn) : exn :=
  if is_BadZipFile e then
    Exn ValueError ("Error: The downloaded file '" +:+ zip_file_name
                      +:+ "' is not a valid zip file.") (Some e)
  else
    Exn RuntimeError ("An error occurred during unzipping: " +:+ str e) (Some e).

(** The kind of a failure is the class of the exception raised. *)
Definition failure_kind {A} (r : outcome A * World) : option exn_class :=
  match r.1 with
  | Raises e => Some (exn_cls e)
  | Returns _ => None
  end.

(** The class of the exception that a failure was raised from. *)
Definition failure_cause {A} (r : outcome A * World) : option exn_class :=
  match r.1 with
  | Raises e => exn_cls <$> exn_cause e
  | Returns _ => None
  end.

(** The download is stopped by an HTTP error status. *)
Definition http_status_failure (w : World) (url : string) : Prop :=
  ∃ r, remote_get w url = Returns r ∧ 400 <= status_code r < 600.

(** The download is stopped by the transport. *)
Definition network_failure (w : World) (url : string) : Prop :=
  ∃ k m c, remote_get w url = Raises (Exn (RequestException k) m c)
           ∧ (k = ConnectionError ∨ k = Timeout).

(** The forms a failure of [download_and_extract_zip] on [url] can take in
    the world [w]. *)
Inductive acquisition_failure (w : World) (url : string) : exn → Prop :=
  | unparsable_url e :
      UrlParse.urlparse url = Raises e →
      acquisition_failure w url e
  | unsupported_resource parsed message :
      UrlParse.urlparse url = Returns parsed →
      verify_file_type url (UrlParse.path parsed) false w = (Returns (false, message), w) →
      acquisition_failure w url
        (Exn ValueError ("The url provided " +:+ url
                           +:+ " doesn't correspond to a ZIP file. " +:+ message) None)
  | download_failed e :
      fetch_failure w url = Some e →
      is_RequestException e = true →
      acquisition_failure w url
        (Exn RuntimeError ("Error downloading the file: " +:+ str e) (Some e))
  | invalid_url e :
      fetch_failure w url = Some e →
      is_RequestException e = false → is_TypeError e = true →
      acquisition_failure w url
        (Exn ValueError ("Invalid URL: " +:+ url +:+ ". Error: " +:+ str e) (Some e))
  | passed_on e :
      fetch_failure w url = Some e →
      is_RequestException e = false → is_TypeError e = false →
      acquisition_failure w url e
  | corrupt_archive parsed e :
      UrlParse.urlparse url = Returns parsed →
      fetch_failure w url = None →
      is_BadZipFile e = true →
      acquisition_failure w url
        (Exn ValueError ("Error: The downloaded file '"
                           +:+ PurePath.name (UrlParse.path parsed)
                           +:+ "' is not a valid zip file.") (Some e))
  | unzipping_failed e :
      fetch_failure w url = None →
      is_BadZipFile e = false →
      acquisition_failure w url
        (Exn RuntimeError ("An error occurred during unzipping: " +:+ str e) (Some e)).

(** ** Example worlds *)

Definition response (status : Z) (phrase content_type body : string) (url : string)
  : Response :=
  {| status_code := status; reason := phrase; response_url := url;
     headers := {[ "content-type" := content_type ]};
     content := Returns body |}.

Definition two_files : list ZipInfo :=
  [ {| filename := "a.txt"; member_read := Read "alpha" |};
    {| filename := "sub/b.txt"; member_read := Read "beta" |} ].

Definition read_archive (members : list ZipInfo) (content : string)
  : outcome (list ZipInfo) :=
  if String.eqb content "PK" then Returns members
  else Raises (Exn BadZipFile "File is not a zip file" None).

(** A server that answers every request with a ZIP archive of two files. *)
Definition zip_server : World :=
  {| remote_head := fun url => Returns (response 200 "OK" "application/zip" "" url);
     remote_get := fun url => Returns (response 200 "OK" "application/zip" "PK" url);
     zip_members := read_archive two_files;
     calls := [];
     fs := ∅ |}.

(** No server can be reached. *)
Definition offline : World :=
  let refused := Exn (RequestException ConnectionError) "Connection refused" None in
  {| remote_head := fun _ => Raises refused;
     remote_get := fun _ => Raises refused;
     zip_members := read_archive two_files;
     calls := [];
     fs := ∅ |}.

(** A server that answers every request with the given status. *)
Definition status_server (status : Z) (phrase : string) : World :=
  {| remote_head := fun url => Returns (response status phrase "application/zip" "" url);
     remote_get := fun url => Returns (response status phrase "application/zip" "" url);
     zip_members := read_archive two_files;
     calls := [];
     fs := ∅ |}.

Definition parsed_path (pth : string) : UrlParse.ParseResult :=
  {| UrlParse.scheme := "https"; UrlParse.netloc := "example.org";
     UrlParse.path := pth; UrlParse.params := ""; UrlParse.query := "";
     UrlParse.fragment := "" |}.




(** ** Files and archives *)

Section Vocabulary.
Implicit Types (f : gmap (list string) node) (k q t : list string).












(** The place of a member below the directory: its name joined to the name
    of the directory. *)
Definition place (dir : string) (m : ZipInfo) : list string :=
  Os.locate (dir +:+ "/" +:+ filename m).



(** An archive is tidy when no member's name has a [..] component, and a
    member that is a file has a name with a component other than [.], can
    be read, has no member below it, and shares its path with none but
    files that read as it does. *)
Record tidy (members : list ZipInfo) : Prop := {
  tidy_names : ∀ m, m ∈ members → ".." ∉ PyStr.split "/" (filename m);
  tidy_named : ∀ m, m ∈ members → Zip.is_dir m = false → Zip.arcname m ≠ [];
  tidy_nesting : ∀ m1 m2, m1 ∈ members → m2 ∈ members →
    Zip.is_dir m1 = false → Zip.arcname m1 `prefix_of` Zip.arcname m2 →
    Zip.arcname m2 = Zip.arcname m1 ∧ Zip.is_dir m2 = false
    ∧ member_read m2 = member_read m1;
  tidy_readable : ∀ m, m ∈ members → Zip.is_dir m = false →
    ∃ data, member_data m = Returns data
}.







End Vocabulary.

(** ** Vocabulary of the further properties *)

(** The test of lines 39-42 on the lower-cased content type. *)
Definition names_zip (content_type : string) : bool :=
  PyStr.contains "application/zip" content_type
  || PyStr.contains "application/x-zip-compressed" content_type.

(** The answer is not an HTTP error for [raise_for_status]. *)
Definition not_an_error (r : Response) : Prop :=
  ¬ (400 <= status_code r < 600).

(** A server whose content type is written in capitals and has a parameter. *)
Definition shouting_server : World :=
  {| remote_head := fun url =>
       Returns (response 200 "OK" "Application/ZIP; charset=binary" "" url);
     remote_get := fun url =>
       Returns (response 200 "OK" "Application/ZIP; charset=binary" "PK" url);
     zip_members := read_archive two_files;
     calls := [];
     fs := ∅ |}.

(** A server that sends no content type. *)
Definition silent_server : World :=
  {| remote_head := fun url =>
       Returns {| status_code := 200; reason := "OK"; response_url := url;
                  headers := ∅; content := Returns "" |};
     remote_get := remote_get zip_server;
     zip_members := read_archive two_files;
     calls := [];
     fs := ∅ |}.

(** The four library calls of a complete acquisition. *)
Definition acquisition_calls (url extract_to_dir : string) : list call :=
  [requests_get url; os_makedirs extract_to_dir; zipfile_ZipFile;
   ZipFile_extractall extract_to_dir].

(** A computation that makes no library call. *)
Definition quiet {A} (m : M A) : Prop := ∀ w, calls (m w).2 = calls w.








(** An archive whose second member has a wrong check sum, which is found
    at the end of its data, before any of them has been written. *)
Definition crc_server : World :=
  {| remote_head := remote_head zip_server;
     remote_get := remote_get zip_server;
     zip_members := read_archive
       [ {| filename := "a.txt"; member_read := Read "alpha" |};
         {| filename := "b.txt";
            member_read :=
              Torn "" (Exn BadZipFile "Bad CRC-32 for file 'b.txt'" None) |} ];
     calls := [];
     fs := ∅ |}.


(** ** Column names *)

(** A character that is not [c]. *)
Definition other_than (c : ascii) (a : ascii) : bool := negb (PyStr.eqb_char a c).

(** A character that is a capital letter, a space or a parenthesis. *)
Definition untidy_char (a : ascii) : bool :=
  PyStr.is_upper a || PyStr.eqb_char a " " || PyStr.eqb_char a "("
  || PyStr.eqb_char a ")".

(** * Properties *)

(** ** Strings and paths *)

Section StringFacts.
Import PyStr.

Lemma eqb_char_eq a b : eqb_char a b = true ↔ a = b.
Proof. apply Ascii.eqb_eq. Qed.

Lemma prefix_app s t : String.prefix s (s +:+ t) = true.
Proof.
  induction s as [|a s IH]; simpl.
  - by destruct t.
  - destruct (ascii_dec a a); [apply IH | congruence].
Qed.

Lemma contains_app_r sub a t : contains sub t = true → contains sub (a +:+ t) = true.
Proof.
  induction a as [|c a IH]; simpl; [done|].
  intros H. rewrite (IH H). apply orb_true_r.
Qed.

Lemma append_assoc a b c : (a +:+ b) +:+ c = a +:+ b +:+ c.
Proof.
  induction a as [|x a IH]; [done|].
  unfold String.append; fold String.append. by f_equal.
Qed.

Lemma contains_of_prefix sub s :
  String.prefix sub s = true → contains sub s = true.
Proof. destruct s; simpl; by intros ->. Qed.

Lemma prefix_refl s : String.prefix s s = true.
Proof.
  induction s as [|c s IH]; simpl; [done|].
  destruct (ascii_dec c c); [done | congruence].
Qed.

(** A string contains whatever is spliced into it. *)
Lemma contains_infix sub a b : contains sub (a +:+ sub +:+ b) = true.
Proof. apply contains_app_r, contains_of_prefix, prefix_app. Qed.

Lemma contains_tail sub a : contains sub (a +:+ sub) = true.
Proof. apply contains_app_r, contains_of_prefix, prefix_refl. Qed.

Lemma rfind_drop c s i : rfind c s = Some i → ∃ t, drop i s = String c t.
Proof.
  revert i. induction s as [|a s IH]; simpl; intros i; [done|].
  destruct (rfind c s) as [j|] eqn:E.
  - intros [= <-]. simpl. by apply IH.
  - destruct (eqb_char a c) eqn:Ec; [|done].
    intros [= <-]. apply eqb_char_eq in Ec as ->. simpl. eauto.
Qed.

(** The suffix of a path is empty or begins with a dot. *)
Lemma suffix_shape p :
  PurePath.suffix p = "" ∨ ∃ t, PurePath.suffix p = String "." t.
Proof.
  unfold PurePath.suffix.
  destruct (rfind "." (PurePath.name p)) as [i|] eqn:E; [|by left].
  destruct (_ && _); [|by left].
  right. by apply rfind_drop.
Qed.

Lemma lower_suffix_shape p :
  lower (PurePath.suffix p) = "" ∨
  contains "." (lower (PurePath.suffix p)) = true.
Proof.
  destruct (suffix_shape p) as [->|[t ->]]; [by left|].
  right. simpl. by destruct (lower t).
Qed.

End StringFacts.

(** The extension decides the verdict, and the world is not touched: the
    call of [check_url_is_a_zip_from_header] on line 115 is never reached,
    because a suffix that is not empty contains a dot. *)
Lemma verify_file_type_by_extension url path w :
  let ext := PyStr.lower (PurePath.suffix path) in
  verify_file_type url path false w =
    (Returns
       (if bool_decide (ext = ".zip") then
          (true, "Based on URL extension: '" +:+ ext +:+ "', it appears to be a ZIP file.")
        else if bool_decide (ext = "") then
          (false, "The URL does not have a file extension, cannot determine if it is a ZIP file.")
        else
          (false, "Based on URL extension: '" +:+ ext +:+ "', it does not appear to be a ZIP file.")),
     w).
Proof.
  intros ext. unfold verify_file_type. fold ext.
  repeat case_bool_decide; try done.
  destruct (lower_suffix_shape path) as [H'|H']; [done|].
  fold ext in H'. by rewrite H'.
Qed.

Lemma verify_file_type_omitted url path w :
  verify_file_type url path true w =
    (Returns (true, "Verification of the file type is omitted, assuming it is a ZIP file."), w).
Proof. done. Qed.

Lemma verify_file_type_world url path omit w :
  (verify_file_type url path omit w).2 = w.
Proof.
  destruct omit; [done|]. by rewrite verify_file_type_by_extension.
Qed.

Lemma download_content_fails url file_name w e :
  fetch_failure w url = Some e →
  download_content url file_name w =
    (Raises (download_error url e), record_call (requests_get url) w).
Proof.
  unfold fetch_failure, download_content, download_error, Requests.get,
    Requests.raise_for_status, Requests.read_content. run.
  destruct (remote_get w url) as [r|e0]; run.
  - repeat (destruct (_ && _); run);
      [ by intros [= <-] | by intros [= <-] | ].
    destruct (content r) as [c|e1]; run; [done|].
    intros [= <-]. destruct (is_RequestException e1); [done|].
    by destruct (is_TypeError e1).
  - intros [= <-]. destruct (is_RequestException e0); [done|].
    by destruct (is_TypeError e0).
Qed.

Lemma download_content_succeeds url file_name w :
  fetch_failure w url = None →
  ∃ r body, remote_get w url = Returns r ∧ content r = Returns body ∧
    download_content url file_name w =
      (Returns (body, file_name), record_call (requests_get url) w).
Proof.
  unfold fetch_failure, download_content, Requests.get,
    Requests.raise_for_status, Requests.read_content. run.
  destruct (remote_get w url) as [r|e0]; run; [|done].
  repeat (destruct (_ && _); run); try done.
  destruct (content r) as [c|e1] eqn:Ec; run; [|done].
  intros _. by exists r, c.
Qed.

(** ** The verdict on the URL *)

Lemma download_file_from_url_unparsable url omit w e :
  UrlParse.urlparse url = Raises e →
  download_file_from_url url omit w = (Raises e, w).
Proof. intros H. unfold download_file_from_url. run. by rewrite H. Qed.

Lemma download_file_from_url_parsed url omit w parsed :
  UrlParse.urlparse url = Returns parsed →
  download_file_from_url url omit w =
    match verify_file_type url (UrlParse.path parsed) omit w with
    | (Returns (is_zip, message), w1) =>
        if is_zip || omit
        then download_content url (PurePath.name (UrlParse.path parsed)) w1
        else (Raises (Exn ValueError
                        ("The url provided " +:+ url
                           +:+ " doesn't correspond to a ZIP file. " +:+ message) None),
              w1)
    | (Raises e, w1) => (Raises e, w1)
    end.
Proof.
  intros H. unfold download_file_from_url. run. rewrite H. simpl.
  destruct (verify_file_type _ _ _ _) as [[[b m]|e] w1]; [|done].
  by destruct (b || omit).
Qed.

Lemma download_content_calls url file_name w :
  calls (download_content url file_name w).2 = (calls w ++ [requests_get url])%list.
Proof.
  destruct (fetch_failure w url) as [e|] eqn:E.
  - by rewrite (download_content_fails _ _ _ _ E).
  - destruct (download_content_succeeds url file_name w E) as (r & b & _ & _ & ->).
    done.
Qed.

Lemma download_content_fs url file_name w :
  fs (download_content url file_name w).2 = fs w.
Proof.
  destruct (fetch_failure w url) as [e|] eqn:E.
  - by rewrite (download_content_fails _ _ _ _ E).
  - destruct (download_content_succeeds url file_name w E) as (r & b & _ & _ & ->).
    done.
Qed.

(** C7. A URL whose path has the extension [.zip], in any letter case, gets
    a positive verdict, and the verdict is reached without any call: the
    world after it is the world before it.  The download that follows makes
    one call, the [GET] of the URL, and no [HEAD]. *)
Theorem C7_zip_extension_positive_without_network url parsed w :
  UrlParse.urlparse url = Returns parsed →
  PyStr.lower (PurePath.suffix (UrlParse.path parsed)) = ".zip" →
  verify_file_type url (UrlParse.path parsed) false w =
    (Returns (true, "Based on URL extension: '.zip', it appears to be a ZIP file."), w)
  ∧ calls (download_file_from_url url false w).2 = (calls w ++ [requests_get url])%list.
Proof.
  intros Hp Hext.
  assert (Hv : verify_file_type url (UrlParse.path parsed) false w =
    (Returns (true, "Based on URL extension: '.zip', it appears to be a ZIP file."), w)).
  { rewrite verify_file_type_by_extension. simpl. rewrite Hext. done. }
  split; [done|].
  rewrite (download_file_from_url_parsed _ _ _ _ Hp), Hv. simpl.
  apply download_content_calls.
Qed.

Lemma C7_witness :
  verify_file_type "https://example.org/data/set.ZIP" "/data/set.ZIP" false zip_server =
    (Returns (true, "Based on URL extension: '.zip', it appears to be a ZIP file."),
     zip_server)
  ∧ calls (download_file_from_url "https://example.org/data/set.ZIP" false zip_server).2
    = (calls zip_server ++ [requests_get "https://example.org/data/set.ZIP"])%list.
Proof.
  apply (C7_zip_extension_positive_without_network
           "https://example.org/data/set.ZIP" (parsed_path "/data/set.ZIP") zip_server);
    reflexivity.
Defined.

(** C8. A URL whose path has no extension gets a negative verdict without
    any call, and [download_file_from_url] raises with the world as it was:
    no probe is made to settle the matter. *)
Theorem C8_no_extension_negative_without_network url parsed w :
  UrlParse.urlparse url = Returns parsed →
  PurePath.suffix (UrlParse.path parsed) = "" →
  verify_file_type url (UrlParse.path parsed) false w =
    (Returns (false, "The URL does not have a file extension, cannot determine if it is a ZIP file."),
     w)
  ∧ ∃ e, download_file_from_url url false w = (Raises e, w).
Proof.
  intros Hp Hext.
  assert (Hv : verify_file_type url (UrlParse.path parsed) false w =
    (Returns (false, "The URL does not have a file extension, cannot determine if it is a ZIP file."),
     w)).
  { rewrite verify_file_type_by_extension. simpl. rewrite Hext. done. }
  split; [done|].
  rewrite (download_file_from_url_parsed _ _ _ _ Hp), Hv. simpl. eauto.
Qed.

Lemma C8_witness :
  verify_file_type "https://example.org/download" "/download" false zip_server =
    (Returns (false, "The URL does not have a file extension, cannot determine if it is a ZIP file."),
     zip_server)
  ∧ ∃ e, download_file_from_url "https://example.org/download" false zip_server
         = (Raises e, zip_server).
Proof.
  apply (C8_no_extension_negative_without_network
           "https://example.org/download" (parsed_path "/download") zip_server);
    reflexivity.
Defined.

(** An extension that is neither empty nor [.zip] is turned down on the
    spot as well. *)
Lemma other_extension_negative_without_network url path w :
  PyStr.lower (PurePath.suffix path) ≠ ".zip" →
  PurePath.suffix path ≠ "" →
  verify_file_type url path false w =
    (Returns (false, "Based on URL extension: '" +:+ PyStr.lower (PurePath.suffix path)
                       +:+ "', it does not appear to be a ZIP file."), w).
Proof.
  intros H1 H2. rewrite verify_file_type_by_extension. simpl.
  rewrite bool_decide_eq_false_2 by done.
  rewrite bool_decide_eq_false_2; [done|].
  by destruct (PurePath.suffix path).
Qed.


(** C6. With [omit_verification] the verdict is positive whatever the path
    is, and reaching it touches nothing; [download_file_from_url] is then
    the parsing of the URL followed by the download, and its only call, when
    the URL can be parsed, is the [GET]: there is no [HEAD]. *)
Theorem C6_omitted_verification_skips_the_verdict url w :
  (∀ path, verify_file_type url path true w =
     (Returns (true, "Verification of the file type is omitted, assuming it is a ZIP file."),
      w))
  ∧ download_file_from_url url true w =
      match UrlParse.urlparse url with
      | Returns parsed =>
          download_content url (PurePath.name (UrlParse.path parsed)) w
      | Raises e => (Raises e, w)
      end
  ∧ calls (download_file_from_url url true w).2 =
      match UrlParse.urlparse url with
      | Returns _ => (calls w ++ [requests_get url])%list
      | Raises _ => calls w
      end.
Proof.
  split; [done|].
  destruct (UrlParse.urlparse url) as [parsed|e] eqn:Hp.
  - rewrite (download_file_from_url_parsed _ _ _ _ Hp). simpl.
    split; [done|]. apply download_content_calls.
  - by rewrite (download_file_from_url_unparsable _ _ _ _ Hp).
Qed.

(** C2. When the verdict on the URL is negative, [download_and_extract_zip]
    raises a [ValueError] whose message holds the URL and the verdict's
    message; the world it leaves is the one the verdict left, which has the
    same files and the same calls as the initial one: nothing was fetched, no
    directory was made and the extraction was not entered. *)
Theorem C2_negative_verdict_fails_before_fetch url extract_to_dir parsed message w w1 :
  UrlParse.urlparse url = Returns parsed →
  verify_file_type url (UrlParse.path parsed) false w = (Returns (false, message), w1) →
  let text := "The url provided " +:+ url
                +:+ " doesn't correspond to a ZIP file. " +:+ message in
  download_and_extract_zip url extract_to_dir false w =
    (Raises (Exn ValueError text None), w1)
  ∧ PyStr.contains url text = true
  ∧ PyStr.contains message text = true
  ∧ fs w1 = fs w
  ∧ calls w1 = calls w.
Proof.
  intros Hp Hv text.
  assert (w1 = w) as ->.
  { by rewrite <- (verify_file_type_world url (UrlParse.path parsed) false w), Hv. }
  repeat split.
  - unfold download_and_extract_zip. run.
    rewrite (download_file_from_url_parsed _ _ _ _ Hp), Hv. done.
  - apply contains_infix.
  - unfold text.
    replace ("The url provided " +:+ url +:+ " doesn't correspond to a ZIP file. " +:+ message)
      with (("The url provided " +:+ url +:+ " doesn't correspond to a ZIP file. ")
              +:+ message).
    + apply contains_tail.
    + by rewrite !append_assoc.
Qed.

Lemma C2_witness :
  let url := "https://example.org/download" in
  let message := "The URL does not have a file extension, cannot determine if it is a ZIP file." in
  let text := "The url provided " +:+ url
                +:+ " doesn't correspond to a ZIP file. " +:+ message in
  download_and_extract_zip url "data/01_raw" false zip_server =
    (Raises (Exn ValueError text None), zip_server)
  ∧ PyStr.contains url text = true
  ∧ PyStr.contains message text = true
  ∧ fs zip_server = fs zip_server
  ∧ calls zip_server = calls zip_server.
Proof.
  apply (C2_negative_verdict_fails_before_fetch
           "https://example.org/download" "data/01_raw" (parsed_path "/download")
           "The URL does not have a file extension, cannot determine if it is a ZIP file."
           zip_server zip_server); reflexivity.
Defined.

(** ** The probe *)

(** A status from 300 to 399 is not an error for [raise_for_status]: with
    the content type of a ZIP archive the verdict of the probe is positive. *)
Lemma C9_counterexample :
  ¬ (∀ w url, head_not_2xx w url →
       ∃ message w', check_url_is_a_zip_from_header url w = (Returns (false, message), w')).
Proof.
  intros H.
  destruct (H (status_server 304 "Not Modified") "https://example.org/data/set.csv")
    as (m & w' & E).
  - unfold head_not_2xx. simpl. lia.
  - vm_compute in E. discriminate E.
Qed.

(** C9. The probe never raises: it returns a verdict, having made the one
    [HEAD] call.  When [requests.head] raises, or the status is an HTTP error
    (4xx or 5xx), the verdict is negative and its message ends with the
    text of the exception. *)
Theorem C9_probe_failure_is_a_negative_verdict url w :
  (∃ verdict,
     check_url_is_a_zip_from_header url w =
       (Returns verdict, record_call (requests_head url) w))
  ∧ (∀ e, head_failure w url = Some e →
       check_url_is_a_zip_from_header url w =
         (Returns (false, probe_error_message e), record_call (requests_head url) w)).
Proof.
  unfold head_failure, check_url_is_a_zip_from_header, probe_error_message,
    Requests.head, Requests.raise_for_status. run.
  destruct (remote_head w url) as [r|e0]; run.
  - destruct ((400 <=? status_code r) && (status_code r <? 500)); run.
    { split; [eauto|]. by intros e [= <-]. }
    destruct ((500 <=? status_code r) && (status_code r <? 600)); run.
    { split; [eauto|]. by intros e [= <-]. }
    split; [|done].
    destruct (_ || _); eauto.
  - split.
    + destruct (is_RequestException e0); eauto.
    + intros e [= <-]. by destruct (is_RequestException e0).
Qed.

Lemma C9_witness :
  check_url_is_a_zip_from_header "https://example.org/data/set.csv"
      (status_server 404 "Not Found") =
    (Returns (false,
        "Could not check URL due to network error or invalid URL: 404 Client Error: Not Found for url: https://example.org/data/set.csv"),
     record_call (requests_head "https://example.org/data/set.csv")
       (status_server 404 "Not Found")).
Proof.
  apply (proj2 (C9_probe_failure_is_a_negative_verdict
                  "https://example.org/data/set.csv" (status_server 404 "Not Found"))
           (Exn (RequestException HTTPError)
              "404 Client Error: Not Found for url: https://example.org/data/set.csv"
              None)).
  reflexivity.
Defined.

(** ** Failures of the download *)

Lemma try_except_raises {A} (m : M A) (h : exn → M A) w x w' :
  try_except m h w = (Raises x, w') →
  ∃ e w1, m w = (Raises e, w1) ∧ h e w1 = (Raises x, w').
Proof. unfold try_except. destruct (m w) as [[a|e] w1]; [done | eauto]. Qed.

Lemma extract_zip_content_raises content name dir w x w' :
  extract_zip_content content name dir w = (Raises x, w') →
  ∃ e, x = unzip_error name e.
Proof.
  intros H. apply try_except_raises in H as (e & w1 & _ & H).
  exists e. unfold unzip_error. destruct (is_BadZipFile e); by inversion H.
Qed.

(** A status from 300 to 399 does not stop the download: its body, here an
    empty one, goes to the extraction, which makes the directory before it
    finds that the body is not an archive. *)
Lemma C10_counterexample :
  ¬ (∀ w url extract_to_dir omit,
       get_not_2xx w url →
       ∃ e w', download_and_extract_zip url extract_to_dir omit w = (Raises e, w')
               ∧ fs w' = fs w).
Proof.
  intros H.
  destruct (H (status_server 304 "Not Modified")
              "https://example.org/data/set.zip" "data/01_raw" false)
    as (e & w' & E & Hfs).
  - unfold get_not_2xx. simpl. lia.
  - vm_compute in E. injection E as _ <-.
    apply (f_equal (fun f => f !! ["data"])) in Hfs.
    vm_compute in Hfs. discriminate Hfs.
Qed.

(** C10 (amended). When the download fails, because [requests.get] raises,
    the status is an HTTP error (4xx or 5xx) or the body cannot be read,
    [download_and_extract_zip] raises, the files are as before, and the only
    call that can have been made is the [GET]: [os.makedirs] was not called
    and the extraction was not entered. *)
Theorem C10_failed_fetch_leaves_the_files_alone url extract_to_dir omit w e :
  fetch_failure w url = Some e →
  ∃ e' w',
    download_and_extract_zip url extract_to_dir omit w = (Raises e', w')
    ∧ fs w' = fs w
    ∧ (calls w' = calls w ∨ calls w' = (calls w ++ [requests_get url])%list).
Proof.
  intros Hf. unfold download_and_extract_zip. run.
  destruct (UrlParse.urlparse url) as [parsed|e0] eqn:Hp.
  - rewrite (download_file_from_url_parsed _ _ _ _ Hp).
    pose proof (verify_file_type_world url (UrlParse.path parsed) omit w) as Hw.
    destruct (verify_file_type _ _ _ _) as [[[b m]|e1] w1]; simpl in Hw; subst w1.
    + destruct (b || omit).
      * rewrite (download_content_fails _ _ _ _ Hf). eauto 10.
      * eauto 10.
    + eauto 10.
  - rewrite (download_file_from_url_unparsable _ _ _ _ Hp). eauto 10.
Qed.

Lemma C10_witness :
  ∃ e' w',
    download_and_extract_zip "https://example.org/data/set.zip" "data/01_raw" false offline
      = (Raises e', w')
    ∧ fs w' = fs offline
    ∧ (calls w' = calls offline
       ∨ calls w' = (calls offline ++ [requests_get "https://example.org/data/set.zip"])%list).
Proof.
  apply (C10_failed_fetch_leaves_the_files_alone
           "https://example.org/data/set.zip" "data/01_raw" false offline
           (Exn (RequestException ConnectionError) "Connection refused" None)).
  reflexivity.
Defined.

(** ** Kinds of failure *)

(** A failure by the status and a failure by the transport are of the same
    kind, [RuntimeError]. *)
Lemma C3_counterexample :
  ¬ (∀ w1 w2 url extract_to_dir omit,
       http_status_failure w1 url → network_failure w2 url →
       failure_kind (download_and_extract_zip url extract_to_dir omit w1) ≠
       failure_kind (download_and_extract_zip url extract_to_dir omit w2)).
Proof.
  intros H.
  apply (H (status_server 404 "Not Found") offline
           "https://example.org/data/set.zip" "data/01_raw" false).
  - unfold http_status_failure. eexists. split; [reflexivity|]. simpl. lia.
  - unfold network_failure. do 3 eexists. split; [reflexivity|]. by left.
  - reflexivity.
Qed.

(** C3 (amended). A failure of [download_and_extract_zip] has one of seven
    forms.  The module raises a [ValueError] for an unsupported resource
    (the message holds the URL and the verdict's message), for a [TypeError]
    in the download (the URL and the text of the cause) and for a corrupt
    archive (the file name; the cause is attached, its text is not in the
    message), and a [RuntimeError] for a failed download and for any other
    fault while unzipping (both with the text of the cause); an exception of
    [urlparse], and one of the download that is neither a
    [RequestException] nor a [TypeError], is passed on as it is.  A download
    stopped by an HTTP error status and one stopped by the transport give
    the same form, [download_failed]: the status and the URL are in the
    message only as part of the text of the cause. *)
Theorem C3_failures_have_one_of_seven_forms url extract_to_dir omit w x w' :
  download_and_extract_zip url extract_to_dir omit w = (Raises x, w') →
  acquisition_failure w url x.
Proof.
  unfold download_and_extract_zip. run. intros H.
  destruct (UrlParse.urlparse url) as [parsed|e0] eqn:Hp.
  - rewrite (download_file_from_url_parsed _ _ _ _ Hp) in H.
    pose proof (verify_file_type_world url (UrlParse.path parsed) omit w) as Hw.
    destruct (verify_file_type _ _ _ _) as [[[b m]|e1] w1] eqn:Ev;
      simpl in Hw; subst w1.
    + destruct (b || omit) eqn:Hbo.
      * destruct (fetch_failure w url) as [e|] eqn:Hf.
        -- rewrite (download_content_fails _ _ _ _ Hf) in H.
           inversion H; subst. unfold download_error.
           destruct (is_RequestException e) eqn:E1; [by apply download_failed|].
           destruct (is_TypeError e) eqn:E2;
             [by apply invalid_url | by apply passed_on].
        -- destruct (download_content_succeeds url
                       (PurePath.name (UrlParse.path parsed)) w Hf)
             as (r & body & _ & _ & Hd).
           rewrite Hd in H.
           apply extract_zip_content_raises in H as [e ->].
           unfold unzip_error. destruct (is_BadZipFile e) eqn:E1.
           ++ by apply corrupt_archive.
           ++ by apply unzipping_failed.
      * apply orb_false_iff in Hbo as [-> ->].
        inversion H; subst. by eapply unsupported_resource.
    + exfalso. destruct omit; [by rewrite verify_file_type_omitted in Ev|].
      by rewrite verify_file_type_by_extension in Ev.
  - rewrite (download_file_from_url_unparsable _ _ _ _ Hp) in H.
    inversion H; subst. by apply unparsable_url.
Qed.

Lemma C3_witness :
  acquisition_failure (status_server 404 "Not Found") "https://example.org/data/set.zip"
    (Exn RuntimeError
       "Error downloading the file: 404 Client Error: Not Found for url: https://example.org/data/set.zip"
       (Some (Exn (RequestException HTTPError)
                "404 Client Error: Not Found for url: https://example.org/data/set.zip"
                None))).
Proof.
  apply (C3_failures_have_one_of_seven_forms
           "https://example.org/data/set.zip" "data/01_raw" false
           (status_server 404 "Not Found") _
           (record_call (requests_get "https://example.org/data/set.zip")
              (status_server 404 "Not Found"))).
  reflexivity.
Defined.

(** ** The file system *)

Section FileSystemFacts.
Implicit Types (f : gmap (list string) node) (k q : list string).






(** *** Directories that are added *)










(** *** The last step of [os.makedirs] *)




(** *** Following a name *)
























End FileSystemFacts.

(** ** Extraction *)




(** *** Where a member of an archive belongs *)


Section PathFacts.
Import PyStr.

Lemma split_not_nil c s : split c s ≠ [].
Proof.
  destruct s as [|a s]; simpl; [done|].
  destruct (eqb_char a c); [done|]. by destruct (split c s).
Qed.

Lemma split_app c a b :
  split c (a +:+ String c b) = split c a ++ split c b.
Proof.
  induction a as [|x a IH].
  - simpl. by rewrite (proj2 (eqb_char_eq c c)).
  - change (String x a +:+ String c b) with (String x (a +:+ String c b)).
    simpl. destruct (eqb_char x c); [by rewrite IH|].
    rewrite IH. pose proof (split_not_nil c a).
    by destruct (split c a).
Qed.

















End PathFacts.

(** *** Paths in normal form *)

Section NormalPaths.
Implicit Types (f : gmap (list string) node) (k q t acc : list string).





















End NormalPaths.

(** *** Archives that extract in full *)

Section ExtractionFacts.
Implicit Types (f : gmap (list string) node) (k q t : list string).























End ExtractionFacts.

(** *** What an extraction does in any case *)

Section Effects.
Implicit Types (f : gmap (list string) node) (k q t : list string).





End Effects.

Section EmptyFileSystem.









End EmptyFileSystem.

(** Names with [.], with doubled slashes or with a slash at their start,
    a directory named by a slash alone, and two members of one path that
    read alike make a tidy archive. *)
Example odd_names_are_tidy :
  tidy [ {| filename := "./a.txt"; member_read := Read "alpha" |};
         {| filename := "/"; member_read := Read "" |};
         {| filename := "sub//"; member_read := Read "" |};
         {| filename := "/sub/./b.txt"; member_read := Read "beta" |};
         {| filename := "a.txt"; member_read := Read "alpha" |} ].
Proof.
  split.
  - intros m Hm. repeat (apply elem_of_cons in Hm as [->|Hm]);
      try (by apply elem_of_nil in Hm); vm_compute;
      intros H; repeat (apply elem_of_cons in H as [H|H]; [discriminate H|]);
      by apply elem_of_nil in H.
  - intros m Hm. repeat (apply elem_of_cons in Hm as [->|Hm]);
      try (by apply elem_of_nil in Hm); intros Hd;
      first [discriminate Hd | vm_compute; discriminate].
  - intros m1 m2 H1 H2.
    repeat (apply elem_of_cons in H1 as [->|H1]); try (by apply elem_of_nil in H1);
    repeat (apply elem_of_cons in H2 as [->|H2]); try (by apply elem_of_nil in H2);
      intros Hd Hp;
      first [ discriminate Hd
            | by split_and!
            | exfalso; vm_compute in Hp; destruct Hp as [k Hk]; discriminate Hk ].
  - intros m Hm. repeat (apply elem_of_cons in Hm as [->|Hm]);
      try (by apply elem_of_nil in Hm); intros Hd;
      first [discriminate Hd | eauto].
Qed.

(** Each condition on the archive and on the file system is needed.  A
    directory whose name has a [..] is not made at the place its name
    gives it either: for [a/../], which is the directory itself, [out/a]
    is made. *)
Example climbing_directory_is_made_elsewhere :
  let members := [ {| filename := "a/../"; member_read := Read "" |} ] in
  let w := {| remote_head := remote_head zip_server; remote_get := remote_get zip_server;
              zip_members := read_archive members; calls := []; fs := ∅ |} in
  let r := extract_zip_content "PK" "set.zip" "out" w in
  r.1 = Returns tt ∧ fs r.2 !! ["out"; "a"] = Some Dir
  ∧ place "out" {| filename := "a/../"; member_read := Read "" |} = ["out"].
Proof. split_and!; reflexivity. Qed.

(** Of two members with one name that do not read alike, only the last
    is written. *)
Example repeated_name_keeps_the_last :
  let members := [ {| filename := "a.txt"; member_read := Read "one" |};
                   {| filename := "a.txt"; member_read := Read "two" |} ] in
  let w := {| remote_head := remote_head zip_server; remote_get := remote_get zip_server;
              zip_members := read_archive members; calls := []; fs := ∅ |} in
  let r := extract_zip_content "PK" "set.zip" "out" w in
  r.1 = Returns tt ∧ fs r.2 !! ["out"; "a.txt"] = Some (File "two").
Proof. split; reflexivity. Qed.

(** A member below a member that is a file stops the extraction. *)
Example member_below_a_file_fails :
  let members := [ {| filename := "a"; member_read := Read "one" |};
                   {| filename := "a/b"; member_read := Read "two" |} ] in
  let w := {| remote_head := remote_head zip_server; remote_get := remote_get zip_server;
              zip_members := read_archive members; calls := []; fs := ∅ |} in
  failure_kind (extract_zip_content "PK" "set.zip" "out" w) = Some RuntimeError
  ∧ failure_cause (extract_zip_content "PK" "set.zip" "out" w)
    = Some (OSError NotADirectoryError).
Proof. split; reflexivity. Qed.

(** A member that is a file and has no name of its own, such as [.], is to
    be written where the directory is. *)
Example member_without_a_name_fails :
  let members := [ {| filename := "."; member_read := Read "one" |} ] in
  let w := {| remote_head := remote_head zip_server; remote_get := remote_get zip_server;
              zip_members := read_archive members; calls := []; fs := ∅ |} in
  failure_kind (extract_zip_content "PK" "set.zip" "out" w) = Some RuntimeError
  ∧ failure_cause (extract_zip_content "PK" "set.zip" "out" w)
    = Some (OSError IsADirectoryError).
Proof. split; reflexivity. Qed.

(** A regular file where the directory is to be made stops it as well. *)
Example file_in_the_way_fails :
  let w := {| remote_head := remote_head zip_server; remote_get := remote_get zip_server;
              zip_members := read_archive two_files; calls := [];
              fs := {[ ["out"] := File "" ]} |} in
  failure_kind (extract_zip_content "PK" "set.zip" "out" w) = Some RuntimeError
  ∧ failure_cause (extract_zip_content "PK" "set.zip" "out" w)
    = Some (OSError FileExistsError).
Proof. split; reflexivity. Qed.

(** So does a regular file that the name of the directory passes through,
    although the normalised name does not. *)
Example file_passed_through_fails :
  let w := {| remote_head := remote_head zip_server; remote_get := remote_get zip_server;
              zip_members := read_archive two_files; calls := [];
              fs := {[ ["a"] := File "" ]} |} in
  failure_kind (extract_zip_content "PK" "set.zip" "a/../b" w) = Some RuntimeError
  ∧ failure_cause (extract_zip_content "PK" "set.zip" "a/../b" w)
    = Some (OSError NotADirectoryError)
  ∧ fs (extract_zip_content "PK" "set.zip" "a/../b" w).2 !! ["b"] = None.
Proof. split_and!; reflexivity. Qed.

(** [os.makedirs] makes the directories that the name passes through: one
    of them can be where a member is to be written. *)
Example name_through_a_member_fails :
  let w := {| remote_head := remote_head zip_server; remote_get := remote_get zip_server;
              zip_members := read_archive two_files; calls := []; fs := ∅ |} in
  failure_kind (extract_zip_content "PK" "set.zip" "out/a.txt/.." w)
    = Some RuntimeError
  ∧ failure_cause (extract_zip_content "PK" "set.zip" "out/a.txt/.." w)
    = Some (OSError IsADirectoryError).
Proof. split; reflexivity. Qed.



(** * Further properties *)

(** ** The probe on its own *)

Lemma raise_for_status_passes r w :
  not_an_error r → Requests.raise_for_status r w = (Returns tt, w).
Proof.
  intros Hok. unfold Requests.raise_for_status, not_an_error in *.
  destruct ((400 <=? status_code r) && (status_code r <? 500)) eqn:E1; [lia|].
  destruct ((500 <=? status_code r) && (status_code r <? 600)) eqn:E2; [lia|].
  done.
Qed.

Lemma probe_on_answer url w r :
  remote_head w url = Returns r →
  not_an_error r →
  let content_type := PyStr.lower (default "" (headers r !! "content-type")) in
  check_url_is_a_zip_from_header url w =
    (Returns
       (if names_zip content_type
        then (true, "Based on Content-Type header: '" +:+ content_type
                      +:+ "', it is identified as a ZIP file.")
        else (false, "Content-Type header '" +:+ content_type
                       +:+ "' does not indicate a ZIP file.")),
     record_call (requests_head url) w).
Proof.
  intros Hr Hok content_type.
  unfold check_url_is_a_zip_from_header, Requests.head. run. rewrite Hr.
  rewrite (raise_for_status_passes _ _ Hok).
  unfold Requests.headers_get, names_zip. simpl. fold content_type.
  by destruct (_ || _).
Qed.

(** X1. A content type that holds one of the two tokens anywhere, in any
    letter case, gives the positive verdict: parameters after the type, or
    text before it, do not matter. *)
Theorem probe_accepts_the_token_anywhere url w r value before after token :
  remote_head w url = Returns r →
  not_an_error r →
  headers r !! "content-type" = Some value →
  token = "application/zip" ∨ token = "application/x-zip-compressed" →
  PyStr.lower value = before +:+ token +:+ after →
  ∃ message,
    check_url_is_a_zip_from_header url w =
      (Returns (true, message), record_call (requests_head url) w).
Proof.
  intros Hr Hok Hv Ht Hl.
  rewrite (probe_on_answer url w r Hr Hok).
  rewrite Hv. simpl. rewrite Hl.
  assert (names_zip (before +:+ token +:+ after) = true) as ->; [|eauto].
  unfold names_zip. destruct Ht as [-> | ->].
  - by rewrite contains_infix.
  - rewrite (contains_infix "application/x-zip-compressed"). apply orb_true_r.
Qed.

Lemma probe_accepts_witness :
  ∃ message,
    check_url_is_a_zip_from_header "https://example.org/data/set.csv" shouting_server =
      (Returns (true, message),
       record_call (requests_head "https://example.org/data/set.csv") shouting_server).
Proof.
  apply (probe_accepts_the_token_anywhere
           "https://example.org/data/set.csv" shouting_server
           (response 200 "OK" "Application/ZIP; charset=binary" ""
              "https://example.org/data/set.csv")
           "Application/ZIP; charset=binary" "" "; charset=binary" "application/zip").
  - reflexivity.
  - unfold not_an_error. simpl. lia.
  - reflexivity.
  - by left.
  - reflexivity.
Defined.

(** X2. Without a [Content-Type] header the verdict of the probe is
    negative, and its message quotes an empty content type. *)
Theorem probe_without_content_type_is_negative url w r :
  remote_head w url = Returns r →
  not_an_error r →
  headers r !! "content-type" = None →
  check_url_is_a_zip_from_header url w =
    (Returns (false, "Content-Type header '' does not indicate a ZIP file."),
     record_call (requests_head url) w).
Proof.
  intros Hr Hok Hnone.
  rewrite (probe_on_answer url w r Hr Hok).
  by rewrite Hnone.
Qed.

Lemma probe_without_content_type_witness :
  check_url_is_a_zip_from_header "https://example.org/data/set.csv" silent_server =
    (Returns (false, "Content-Type header '' does not indicate a ZIP file."),
     record_call (requests_head "https://example.org/data/set.csv") silent_server).
Proof.
  apply (probe_without_content_type_is_negative
           "https://example.org/data/set.csv" silent_server
           {| status_code := 200; reason := "OK";
              response_url := "https://example.org/data/set.csv";
              headers := ∅; content := Returns "" |}).
  - reflexivity.
  - unfold not_an_error. simpl. lia.
  - reflexivity.
Defined.

(** ** The download on its own *)

Lemma fetch_failure_none w url :
  fetch_failure w url = None ↔
  ∃ r body, remote_get w url = Returns r ∧ not_an_error r ∧ content r = Returns body.
Proof.
  unfold fetch_failure, not_an_error. split.
  - destruct (remote_get w url) as [r|e]; [|done].
    destruct ((400 <=? status_code r) && (status_code r <? 500)) eqn:E1; [done|].
    destruct ((500 <=? status_code r) && (status_code r <? 600)) eqn:E2; [done|].
    destruct (content r) as [body|e] eqn:Ec; [|done].
    intros _. exists r, body. split_and!; [done | lia | done].
  - intros (r & body & -> & Hok & ->).
    destruct ((400 <=? status_code r) && (status_code r <? 500)) eqn:E1; [lia|].
    destruct ((500 <=? status_code r) && (status_code r <? 600)) eqn:E2; [lia|].
    done.
Qed.

(** X3. [download_file_from_url] returns exactly when the URL can be parsed,
    the verification is omitted or the lower-cased suffix of the path is
    [.zip], and the [GET] is answered without an HTTP error by a body that
    can be read.  It then returns that body as it is and the name of the
    path, having made the one [GET] and nothing else: without
    [omit_verification] nothing is downloaded from a URL that does not end
    in [.zip]. *)
Theorem download_returns_exactly_when url omit w body file_name w' :
  download_file_from_url url omit w = (Returns (body, file_name), w') ↔
  ∃ parsed r,
    UrlParse.urlparse url = Returns parsed
    ∧ (omit = true ∨ PyStr.lower (PurePath.suffix (UrlParse.path parsed)) = ".zip")
    ∧ remote_get w url = Returns r
    ∧ not_an_error r
    ∧ content r = Returns body
    ∧ file_name = PurePath.name (UrlParse.path parsed)
    ∧ w' = record_call (requests_get url) w.
Proof.
  split.
  - intros H. destruct (UrlParse.urlparse url) as [parsed|e0] eqn:Hp.
    2:{ by rewrite (download_file_from_url_unparsable _ _ _ _ Hp) in H. }
    rewrite (download_file_from_url_parsed _ _ _ _ Hp) in H.
    assert (∃ b m, verify_file_type url (UrlParse.path parsed) omit w
                   = (Returns (b, m), w)
                   ∧ (b || omit = true →
                      omit = true
                      ∨ PyStr.lower (PurePath.suffix (UrlParse.path parsed)) = ".zip"))
      as (b & m & Hv & Hb).
    { destruct omit.
      - rewrite verify_file_type_omitted. do 2 eexists. split; [done|]. by left.
      - rewrite verify_file_type_by_extension. simpl.
        case_bool_decide as E1; [do 2 eexists; split; [done|]; by right|].
        case_bool_decide; do 2 eexists; (split; [done|]); done. }
    rewrite Hv in H. destruct (b || omit) eqn:Hbo; [|done].
    destruct (fetch_failure w url) as [e|] eqn:Hf.
    { by rewrite (download_content_fails _ _ _ _ Hf) in H. }
    destruct (download_content_succeeds url (PurePath.name (UrlParse.path parsed)) w Hf)
      as (r & body' & Hr & Hc & Hd).
    rewrite Hd in H. injection H as <- <- <-.
    apply fetch_failure_none in Hf as (r' & body'' & Hr' & Hok & Hc').
    rewrite Hr in Hr'. injection Hr' as <-.
    exists parsed, r. split_and!; try done. by apply Hb.
  - intros (parsed & r & Hp & Hv & Hr & Hok & Hc & -> & ->).
    rewrite (download_file_from_url_parsed _ _ _ _ Hp).
    assert (∃ m, verify_file_type url (UrlParse.path parsed) omit w
                 = (Returns (true || omit, m), w) ∧ true || omit = true)
      as (m & -> & _).
    { destruct omit.
      - rewrite verify_file_type_omitted. eauto.
      - destruct Hv as [|He]; [done|].
        rewrite verify_file_type_by_extension. simpl. rewrite He. eauto. }
    simpl.
    assert (fetch_failure w url = None) as Hf.
    { apply fetch_failure_none. eauto. }
    destruct (download_content_succeeds url (PurePath.name (UrlParse.path parsed)) w Hf)
      as (r' & body' & Hr' & Hc' & ->).
    rewrite Hr in Hr'. injection Hr' as <-. rewrite Hc in Hc'. by injection Hc' as <-.
Qed.

(** X4. A URL that [urlparse] turns down stops everything before any call:
    the [ValueError] of the parser is what [download_and_extract_zip]
    raises, as it is, whether the verification is omitted or not, and the
    world is as before. *)
Theorem unparsable_url_fails_before_any_call url extract_to_dir omit w e :
  UrlParse.urlparse url = Raises e →
  exn_cls e = ValueError
  ∧ download_and_extract_zip url extract_to_dir omit w = (Raises e, w).
Proof.
  intros Hp. split.
  - unfold UrlParse.urlparse in Hp.
    destruct (UrlParse.split_scheme _) as [sch url1].
    assert (Hcheck : ∀ loc e', UrlParse.check_bracketed_netloc loc = Raises e' →
              exn_cls e' = ValueError).
    { intros loc e'. unfold UrlParse.check_bracketed_netloc,
        UrlParse.check_bracketed_host, IpAddress.ip_address.
      intros H. repeat case_match; by simplify_eq/=. }
    destruct (String.prefix "//" url1).
    + destruct (UrlParse.splitnetloc url1) as [loc rest].
      destruct (xorb _ _); [by inversion Hp|].
      destruct (_ && _).
      * destruct (UrlParse.check_bracketed_netloc loc) as [[]|e'] eqn:E.
        -- repeat case_match; by simplify_eq/=.
        -- inversion Hp; subst. by eapply Hcheck.
      * repeat case_match; by simplify_eq/=.
    + repeat case_match; by simplify_eq/=.
  - unfold download_and_extract_zip. run.
    by rewrite (download_file_from_url_unparsable _ _ _ _ Hp).
Qed.

Lemma unparsable_url_witness :
  exn_cls (Exn ValueError "Invalid IPv6 URL" None) = ValueError
  ∧ download_and_extract_zip "https://[::1/data/set.zip" "data/01_raw" true zip_server
    = (Raises (Exn ValueError "Invalid IPv6 URL" None), zip_server).
Proof.
  apply (unparsable_url_fails_before_any_call
           "https://[::1/data/set.zip" "data/01_raw" true zip_server).
  reflexivity.
Defined.

(** The host between brackets is checked: it has to be an IPv6 address, or
    one of a later version. *)
Example bracketed_hosts :
  UrlParse.urlparse "https://[::1]:8080/data/set.zip"
  = Returns {| UrlParse.scheme := "https"; UrlParse.netloc := "[::1]:8080";
               UrlParse.path := "/data/set.zip"; UrlParse.params := "";
               UrlParse.query := ""; UrlParse.fragment := "" |}
  ∧ UrlParse.urlparse "https://[example.org]/data/set.zip"
    = Raises (Exn ValueError
                "'example.org' does not appear to be an IPv4 or IPv6 address" None)
  ∧ UrlParse.urlparse "https://[127.0.0.1]/data/set.zip"
    = Raises (Exn ValueError "An IPv4 address cannot be in brackets" None)
  ∧ UrlParse.urlparse "https://[v1]/data/set.zip"
    = Raises (Exn ValueError "IPvFuture address is invalid" None).
Proof. split_and!; reflexivity. Qed.

(** ** The shape of the path *)

Section NameFacts.
Import PyStr.

Lemma split_trailing c s : split c (s +:+ String c "") = split c s ++ [""].
Proof. by rewrite split_app. Qed.

Lemma name_trailing_slash p : PurePath.name (p +:+ "/") = PurePath.name p.
Proof.
  unfold PurePath.name, PurePath.parts.
  change (p +:+ "/") with (p +:+ String "/" "").
  rewrite split_trailing, filter_app.
  rewrite (filter_cons_False _ "") by (by intros [? _]).
  by rewrite app_nil_r.
Qed.

Lemma rfind_only_first c s :
  has_char c s = false → rfind c (String c s) = Some O.
Proof.
  intros H. simpl.
  assert (rfind c s = None) as ->.
  { induction s as [|a s IH]; [done|]. simpl in *.
    apply orb_false_iff in H as [Ha Hs]. by rewrite (IH Hs), Ha. }
  by rewrite (proj2 (eqb_char_eq c c)).
Qed.

Lemma rfind_last c t : rfind c (t +:+ String c "") = Some (String.length t).
Proof.
  induction t as [|a t IH].
  - simpl. by rewrite (proj2 (eqb_char_eq c c)).
  - change (String a t +:+ String c "") with (String a (t +:+ String c "")).
    simpl. by rewrite IH.
Qed.

Lemma length_snoc t c : String.length (t +:+ String c "") = S (String.length t).
Proof.
  induction t as [|a t IH]; [done|].
  change (String a t +:+ String c "") with (String a (t +:+ String c "")).
  simpl. by rewrite IH.
Qed.

Lemma suffix_of_dot_file p s :
  PurePath.name p = String "." s → has_char "." s = false →
  PurePath.suffix p = "".
Proof.
  intros Hn Hs. unfold PurePath.suffix. rewrite Hn.
  by rewrite (rfind_only_first _ _ Hs).
Qed.

Lemma suffix_of_trailing_dot p t :
  PurePath.name p = t +:+ "." → PurePath.suffix p = "".
Proof.
  intros Hn. unfold PurePath.suffix. rewrite Hn.
  change (t +:+ ".") with (t +:+ String "." "").
  rewrite rfind_last, length_snoc. simpl. rewrite Nat.sub_0_r.
  by rewrite Nat.ltb_irrefl, andb_false_r.
Qed.

End NameFacts.

(** X5. A slash at the end of the path changes neither the file name nor
    the verdict. *)
Theorem trailing_slash_is_ignored url path omit w :
  PurePath.name (path +:+ "/") = PurePath.name path
  ∧ verify_file_type url (path +:+ "/") omit w = verify_file_type url path omit w.
Proof.
  split; [apply name_trailing_slash|].
  unfold verify_file_type, PurePath.suffix. by rewrite name_trailing_slash.
Qed.

(** X6. A file name whose only dot is its first character, such as [.zip],
    or whose last character is a dot, has no extension for [Path.suffix]:
    the URL is turned down as one without an extension, without any call. *)
Theorem dot_file_has_no_extension url path w s :
  (PurePath.name path = String "." s ∧ PyStr.has_char "." s = false)
  ∨ PurePath.name path = s +:+ "." →
  verify_file_type url path false w =
    (Returns (false, "The URL does not have a file extension, cannot determine if it is a ZIP file."),
     w).
Proof.
  intros H.
  assert (PurePath.suffix path = "") as He.
  { destruct H as [[Hn Hs]|Hn];
      [by eapply suffix_of_dot_file | by eapply suffix_of_trailing_dot]. }
  rewrite verify_file_type_by_extension. simpl. by rewrite He.
Qed.

Lemma dot_file_witness :
  verify_file_type "https://example.org/data/.zip" "/data/.zip" false zip_server =
    (Returns (false, "The URL does not have a file extension, cannot determine if it is a ZIP file."),
     zip_server).
Proof.
  apply (dot_file_has_no_extension
           "https://example.org/data/.zip" "/data/.zip" zip_server "zip").
  left. split; reflexivity.
Defined.

(** ** The order of the calls *)

Section Quiet.

Lemma quiet_ret {A} (a : A) : quiet (mret a).
Proof. by intros w. Qed.

Lemma quiet_raise {A} e : quiet (raise (A := A) e).
Proof. by intros w. Qed.

Lemma quiet_lift {A} (o : outcome A) : quiet (lift o).
Proof. by intros w. Qed.

Lemma quiet_on_fs op : quiet (on_fs op).
Proof. intros w. unfold on_fs. by destruct (op (fs w)). Qed.

Lemma quiet_bind {A B} (m : M A) (k : A → M B) :
  quiet m → (∀ a, quiet (k a)) → quiet (m ≫= k).
Proof.
  intros Hm Hk w. unfold mbind, M_bind. specialize (Hm w).
  destruct (m w) as [[a|e] w1]; simpl in *; [|done].
  by rewrite (Hk a w1).
Qed.

Lemma quiet_extract_member m dir : quiet (Zip.extract_member m dir).
Proof.
  unfold Zip.extract_member. apply quiet_bind; [apply quiet_on_fs|].
  intros _. case_bool_decide; [apply quiet_raise|].
  destruct (Zip.is_dir m); [apply quiet_on_fs|].
  destruct (member_read m); [apply quiet_on_fs | apply quiet_raise |].
  apply quiet_bind; [apply quiet_on_fs | intros; apply quiet_raise].
Qed.

Lemma quiet_extract_names members names dir :
  quiet (Zip.extract_names members names dir).
Proof.
  induction names as [|n ns IH]; simpl; [apply quiet_ret|].
  destruct (Zip.getinfo members n); [|apply quiet_raise].
  apply quiet_bind; [apply quiet_extract_member | done].
Qed.

(** The calls of [extract_zip_content]: [os.makedirs] always, then
    [zipfile.ZipFile], then [extractall]. *)
Lemma extract_zip_content_calls content name dir w :
  ∃ n, calls (extract_zip_content content name dir w).2
       = calls w ++ take (S n) [os_makedirs dir; zipfile_ZipFile; ZipFile_extractall dir].
Proof.
  unfold extract_zip_content, Zip.open, Zip.extractall. run.
  destruct (Os.makedirs true dir (fs w)) as [[[]|e] f]; simpl.
  2:{ exists 0%nat. by destruct (is_BadZipFile e). }
  destruct (zip_members w content) as [members|e]; simpl.
  2:{ exists 1%nat. destruct (is_BadZipFile e); simpl; by rewrite <- (assoc_L (++)). }
  exists 2%nat.
  pose proof (quiet_extract_names members (filename <$> members) dir) as Hq.
  match goal with
  | |- context [Zip.extract_names _ _ _ ?w0] => specialize (Hq w0); set (w1 := w0) in *
  end.
  destruct (Zip.extract_names members (filename <$> members) dir w1) as [[[]|e] w2];
    simpl in *.
  - rewrite Hq. simpl. by rewrite <- !(assoc_L (++)).
  - destruct (is_BadZipFile e); simpl; rewrite Hq; simpl; by rewrite <- !(assoc_L (++)).
Qed.

End Quiet.

(** X7. The library calls of one [download_and_extract_zip] are, in this
    order, the first few of [requests.get], [os.makedirs],
    [zipfile.ZipFile] and [extractall]: there is at most one [GET], the
    directory is made only after the download, and no [HEAD] request is ever
    sent. *)
Theorem calls_follow_the_acquisition_order url extract_to_dir omit w :
  ∃ n, calls (download_and_extract_zip url extract_to_dir omit w).2
       = calls w ++ take n (acquisition_calls url extract_to_dir).
Proof.
  unfold download_and_extract_zip. run.
  destruct (UrlParse.urlparse url) as [parsed|e0] eqn:Hp.
  2:{ rewrite (download_file_from_url_unparsable _ _ _ _ Hp). exists 0%nat.
      simpl. by rewrite app_nil_r. }
  rewrite (download_file_from_url_parsed _ _ _ _ Hp).
  pose proof (verify_file_type_world url (UrlParse.path parsed) omit w) as Hw.
  destruct (verify_file_type _ _ _ _) as [[[b m]|e1] w1]; simpl in Hw; subst w1.
  2:{ exists 0%nat. simpl. by rewrite app_nil_r. }
  destruct (b || omit).
  2:{ exists 0%nat. simpl. by rewrite app_nil_r. }
  destruct (fetch_failure w url) as [e|] eqn:Hf.
  { rewrite (download_content_fails _ _ _ _ Hf). by exists 1%nat. }
  destruct (download_content_succeeds url (PurePath.name (UrlParse.path parsed)) w Hf)
    as (r & body & _ & _ & ->).
  destruct (extract_zip_content_calls body (PurePath.name (UrlParse.path parsed))
              extract_to_dir (record_call (requests_get url) w)) as [n Hn].
  exists (S (S n)). rewrite Hn. simpl. by rewrite <- (assoc_L (++)).
Qed.

(** ** Where the extraction writes *)

Section Footprint.
Implicit Types (f : gmap (list string) node) (k q t base : list string).




End Footprint.


(** ** A complete acquisition *)



(** ** A directory that cannot be made *)

Section MakedirsFails.
Implicit Types (f : gmap (list string) node) (k : list string).



End MakedirsFails.

(** [os.makedirs] passes over the [FileExistsError] of the name without
    its last component, and has nothing left to do when that component is
    [.]: a name that leads to a regular file is then taken for a directory
    that is there, and the content is handed to [zipfile.ZipFile]. *)
Example dotted_name_of_a_file_is_accepted :
  let w := set_fs {[ ["f"] := File "" ]} zip_server in
  Os.stat (fs w) (Os.locate "g/../f/.") = Some (File "")
  ∧ (Os.makedirs true "g/../f/." (fs w)).1 = Returns tt
  ∧ calls (extract_zip_content "PK" "set.zip" "g/../f/." w).2
    = [os_makedirs "g/../f/."; zipfile_ZipFile; ZipFile_extractall "g/../f/."].
Proof. split_and!; reflexivity. Qed.



(** ** What the extraction writes *)

Section Written.
Implicit Types (f : gmap (list string) node) (k q t : list string).



End Written.



(** A member whose check sum is wrong leaves a file all the same: here an
    empty one, where nothing was before. *)
Example torn_member_leaves_a_file :
  fs (extract_zip_content "PK" "set.zip" "out" crc_server).2 !! ["out"; "b.txt"]
  = Some (File "").
Proof. reflexivity. Qed.

(** ** Extracting twice *)



(** ** What the extraction keeps *)

Section Lasting.
Implicit Types (f : gmap (list string) node) (k q t : list string).



End Lasting.



(** A member whose check sum is wrong empties the file that was at its
    target. *)
Example torn_member_empties_a_file :
  let w := set_fs {[ ["out"] := Dir; ["out"; "b.txt"] := File "keep" ]} crc_server in
  fs (extract_zip_content "PK" "set.zip" "out" w).2 !! ["out"; "b.txt"]
  = Some (File "").
Proof. reflexivity. Qed.

(** ** A member that cannot be read *)

Section Partial.




End Partial.




(** ** The names of the columns *)

Section ColumnNames.
Import PyStr.
Implicit Types (p : ascii → bool) (s old new : string).

Lemma all_app p s t : all p (s +:+ t) = all p s && all p t.
Proof.
  induction s as [|a s IH]; [done|].
  change (String a s +:+ t) with (String a (s +:+ t)). simpl.
  by rewrite IH, andb_assoc.
Qed.

Lemma all_impl p p' s :
  (∀ a, p a = true → p' a = true) → all p s = true → all p' s = true.
Proof.
  intros H. induction s as [|a s IH]; [done|]. simpl.
  intros [Ha Hs]%andb_true_iff. by rewrite (H a Ha), (IH Hs).
Qed.

Lemma all_other_than c s : all (other_than c) s = true → has_char c s = false.
Proof.
  induction s as [|a s IH]; [done|]. simpl.
  intros [Ha Hs]%andb_true_iff. rewrite (IH Hs). unfold other_than in Ha.
  by destruct (eqb_char a c).
Qed.

(** A replacement brings in no character but those of [new]. *)
Lemma all_replace_from p old new k s :
  all p new = true → all p s = true → all p (replace_from old new k s) = true.
Proof.
  intros Hnew. revert k. induction s as [|a s IH]; intros k; [done|].
  intros [Ha Hs]%andb_true_iff.
  cbn [replace_from]. destruct k as [|k]; [|by apply IH].
  destruct (String.prefix old (String a s)).
  - rewrite all_app, Hnew. by apply IH.
  - simpl. by rewrite Ha, IH.
Qed.

Lemma all_str_replace p old new s :
  old ≠ "" →
  all p new = true → all p s = true → all p (str_replace old new s) = true.
Proof. destruct old; [done|]. intros _. apply all_replace_from. Qed.

(** The replacement of a single character leaves none of it, when [new]
    has none. *)
Lemma all_replace_char p c new s :
  all p new = true → all (other_than c) new = true → all p s = true →
  all (λ a, p a && other_than c a) (str_replace (String c "") new s) = true.
Proof.
  intros Hnew Hc. unfold str_replace.
  assert (Hn : all (λ a, p a && other_than c a) new = true).
  { clear -Hnew Hc. induction new as [|a s IH]; [done|]. simpl in *.
    apply andb_true_iff in Hnew as [-> Hs]. apply andb_true_iff in Hc as [-> Hs'].
    by rewrite IH. }
  induction s as [|a s IH]; [done|].
  intros [Ha Hs]%andb_true_iff.
  cbn [replace_from]. cbv beta iota delta [String.prefix].
  destruct (ascii_dec c a) as [->|Hne].
  - destruct s; rewrite all_app, Hn; by apply IH.
  - simpl. rewrite Ha, (IH Hs). unfold other_than, eqb_char.
    destruct (Ascii.eqb_spec a c) as [->|]; done.
Qed.

Lemma lower_char_not_upper a : is_upper (lower_char a) = false.
Proof.
  destruct a as [[] [] [] [] [] [] [] []]; reflexivity.
Qed.

Lemma all_lower s : all (λ a, negb (is_upper a)) (lower s) = true.
Proof.
  induction s as [|a s IH]; [done|]. simpl.
  by rewrite lower_char_not_upper, IH.
Qed.

End ColumnNames.

(** X15. The name that [preprocess_delivery_data] gives to a column has no
    capital letter of the Latin alphabet, no space and no parenthesis,
    whatever the name of the column was. *)
Theorem renamed_column_is_tidy col :
  PyStr.all (λ a, negb (untidy_char a)) (rename_column col) = true.
Proof.
  unfold rename_column.
  pose proof (all_lower col) as H0.
  apply (all_replace_char _ " " "_") in H0; [|done..].
  apply (all_str_replace _ "_(" "_") in H0; [|done..].
  apply (all_replace_char _ "(" "_") in H0; [|done..].
  apply (all_replace_char _ ")" "") in H0; [|done..].
  apply (all_str_replace _ "perference" "preference") in H0; [|done..].
  revert H0. apply all_impl. intros a. unfold untidy_char, other_than.
  destruct (PyStr.is_upper a), (PyStr.eqb_char a " "), (PyStr.eqb_char a "("),
    (PyStr.eqb_char a ")"); done.
Qed.
